(** * PixelCnnPP: the training / evaluation orchestration loop of [main.py]

    A shallow embedding of [train], [train_loop] and [test_loop].

    - Python integers are [Z]; [%] is floor modulo ([Z.modulo]) and raises
      [ZeroDivisionError] on a zero divisor.
    - Floating-point losses are idealised as real numbers; a float division
      whose divisor is zero yields a non-finite value (inf or NaN) instead of
      raising, as tensor division does.
    - The side effects of the program (scalars sent to the summary writer,
      files saved, lines printed, forward passes of the model) are collected
      in a chronological trace; exceptions abort the run and keep the trace
      emitted so far.
    - The network, the loss, the optimizer, the scheduler and the sampler are
      collaborators outside [main.py]; they are the fields of [Collaborators].
    - Calls without an effect on what is logged, saved or returned are left
      out: [torch.cuda.synchronize], [time.time], the [xm.RateTracker] and the
      transfer of a batch to the device. *)

From Stdlib Require Import ZArith List String Bool Lia Reals Lra DecimalString.
From Stdlib Require DecimalPos DecimalZ.
Import ListNotations.
Open Scope string_scope.
Open Scope Z_scope.

(** ** Python and numpy primitives *)

Inductive exn : Type :=
| UnboundLocalError (name : string)
| ZeroDivisionError
| IndexError.

Inductive result (A : Type) : Type :=
| Ok (a : A)
| Raise (e : exn).
Arguments Ok {A} a.
Arguments Raise {A} e.

(** The value of [tensor / deno]: real division, or a non-finite float when
    the divisor is zero. *)
Inductive fval : Type :=
| Finite (r : R)
| NonFinite.

Definition fdiv (x d : R) : fval :=
  if Req_dec_T d 0%R then NonFinite else Finite (x / d)%R.

(** [np.prod(input_shape)] *)
Definition np_prod (shape : list Z) : Z := fold_left Z.mul shape 1.

(** [np.log(2.)] *)
Definition np_log2 : R := ln 2.

(** ['{}'.format(n)] for an integer *)
Definition format_int (z : Z) : string := NilZero.string_of_int (Z.to_int z).

(** [range(n)] *)
Definition range (n : Z) : list Z := map Z.of_nat (seq 0 (Z.to_nat n)).

(** ** Configuration ([pcnnpp.config]) *)

Record Config : Type := {
  use_tpu : bool;
  batch_size : Z;
  test_batch_size : Z;
  print_every : Z;
  save_interval : Z;
  max_epochs : Z
}.

(** ** Collaborators

    Everything [main.py] imports from [torch], [torch_xla] and [pcnnpp] and
    calls inside the loop. *)

Record Collaborators : Type := {
  example : Type;            (* one element of a dataset *)
  params : Type;             (* trainable parameters of the model *)
  opt_state : Type;          (* Adam moments and learning rate *)
  output : Type;             (* mixture parameters returned by the model *)
  image : Type;
  (* [model(input)], in training or evaluation mode *)
  model_forward : bool -> params -> list example -> output;
  (* [loss_function(input, output)] *)
  loss_function : list example -> output -> R;
  (* [optimizer.zero_grad(); loss.backward(); optimizer.step()] *)
  optimizer_step : opt_state -> params -> list example -> opt_state * params;
  (* the same with [xm.optimizer_step(optimizer)] *)
  xm_optimizer_step : opt_state -> params -> list example -> opt_state * params;
  (* [scheduler.step(epoch)] *)
  scheduler_step : Z -> opt_state -> opt_state;
  (* [sample(model, input_shape)] and [rescaling_inv] *)
  sample : params -> list Z -> image;
  rescaling_inv : image -> image
}.

Section Loop.

Variable T : Collaborators.

Definition batch : Type := list (example T).

Variable config : Config.
Variable model_name : string.       (* the module-level [model_name] *)
Variable input_shape : list Z.      (* [dataset_test.input_shape()] *)
Variable ordinal : Z.               (* [xm.get_ordinal()] *)

(** *** Effects *)

Inductive stdout_line : Type :=
| EpochLine (epoch : Z)
| FlushLine (batch_idx len_train_loader : Z) (bpd : fval)
| FinishedTpuLine (epoch : Z)
| FinishedLine (epoch : Z) (train_loss : R)
| ValidationLine (rank : option Z) (epoch : Z) (bpd : fval)
| SamplingLine (epoch : Z).

Inductive event : Type :=
| Forward (training grad_enabled : bool) (input : batch)
| AddScalar (tag : string) (value : fval) (global_step : Z)
| TorchSave (state_dict : params T) (path : string)
| SaveImage (img : image T) (path : string) (nrow padding : Z)
| Print (line : stdout_line).

(** What the loop mutates: the model (parameters and train/eval mode), the
    optimizer, and torch's global autograd switch. *)
Record runtime : Type := {
  model_params : params T;
  optim : opt_state T;
  training : bool;
  grad_mode : bool
}.

(** A freshly constructed model is in training mode and autograd is on. *)
Definition initial_runtime (p : params T) (o : opt_state T) : runtime :=
  {| model_params := p; optim := o; training := true; grad_mode := true |}.

Record outcome (A : Type) : Type := {
  emitted : list event;
  final : runtime;
  value : result A
}.
Arguments emitted {A} o.
Arguments final {A} o.
Arguments value {A} o.

Definition M (A : Type) : Type := runtime -> outcome A.

Definition ret {A} (a : A) : M A :=
  fun s => {| emitted := []; final := s; value := Ok a |}.

Definition raise {A} (e : exn) : M A :=
  fun s => {| emitted := []; final := s; value := Raise e |}.

Definition bind {A B} (m : M A) (f : A -> M B) : M B :=
  fun s =>
    let r := m s in
    match value r with
    | Ok a =>
        let r' := f a (final r) in
        {| emitted := emitted r ++ emitted r'; final := final r'; value := value r' |}
    | Raise e => {| emitted := emitted r; final := final r; value := Raise e |}
    end.

Notation "x <- m ;; k" := (bind m (fun x => k))
  (at level 61, m at next level, right associativity).
Notation "' pat <- m ;; k" := (bind m (fun x => match x with pat => k end))
  (at level 61, pat pattern, m at next level, right associativity).
Notation "m ;;; k" := (bind m (fun _ => k))
  (at level 61, right associativity).

Definition emit (e : event) : M unit :=
  fun s => {| emitted := [e]; final := s; value := Ok tt |}.

Definition when (b : bool) (m : M unit) : M unit := if b then m else ret tt.

(** [a % b] on Python integers *)
Definition py_mod (a b : Z) : M Z :=
  if b =? 0 then raise ZeroDivisionError else ret (a mod b).

(** Reading a local variable that may not have been assigned *)
Definition local {A} (name : string) (v : option A) : M A :=
  match v with
  | Some a => ret a
  | None => raise (UnboundLocalError name)
  end.

(** [model.train()] and [model.eval()] *)
Definition set_training (b : bool) : M unit :=
  fun s =>
    {| emitted := [];
       final := {| model_params := model_params s; optim := optim s;
                   training := b; grad_mode := grad_mode s |};
       value := Ok tt |}.

(** [output = model(input); loss = loss_function(input, output)] *)
Definition forward_loss (input : batch) : M R :=
  fun s =>
    {| emitted := [Forward (training s) (grad_mode s) input];
       final := s;
       value := Ok (loss_function T input
                      (model_forward T (training s) (model_params s) input)) |}.

(** Lines 97-103: one parameter update *)
Definition optimizer_update (input : batch) : M unit :=
  fun s =>
    let step := if use_tpu config then xm_optimizer_step T else optimizer_step T in
    let updated := step (optim s) (model_params s) input in
    {| emitted := [];
       final := {| model_params := snd updated; optim := fst updated;
                   training := training s; grad_mode := grad_mode s |};
       value := Ok tt |}.

Definition scheduler_update (epoch : Z) : M unit :=
  fun s =>
    {| emitted := [];
       final := {| model_params := model_params s;
                   optim := scheduler_step T epoch (optim s);
                   training := training s; grad_mode := grad_mode s |};
       value := Ok tt |}.

Definition state_dict : M (params T) :=
  fun s => {| emitted := []; final := s; value := Ok (model_params s) |}.

(** *** [train_loop] (lines 84-120) *)

(** The body of the [for] at lines 93-118, from index [batch_idx] on.
    [loss] is the binding of the local variable of that name. *)
Fixpoint train_batches (len_train_loader writes : Z) (data_loader : list batch)
    (batch_idx : Z) (train_loss : R) (new_writes : Z) (loss : option R)
    : M (R * Z * option R) :=
  match data_loader with
  | [] => ret (train_loss, new_writes, loss)
  | input :: rest =>
      l <- forward_loss input ;;
      optimizer_update input ;;;
      let train_loss := (train_loss + l)%R in
      r <- py_mod (batch_idx + 1) (print_every config) ;;
      if r =? 0 then
        let deno := (IZR (print_every config * batch_size config * np_prod input_shape)
                     * np_log2)%R in
        when (negb (use_tpu config))
             (emit (AddScalar "train/bpd" (fdiv train_loss deno) (writes + new_writes))) ;;;
        emit (Print (FlushLine batch_idx len_train_loader (fdiv train_loss deno))) ;;;
        train_batches len_train_loader writes rest (batch_idx + 1) 0%R (new_writes + 1) (Some l)
      else
        train_batches len_train_loader writes rest (batch_idx + 1) train_loss new_writes (Some l)
  end.

Definition train_loop (len_train_loader : Z) (data_loader : list batch) (writes : Z)
    : M (Z * R) :=
  set_training true ;;;
  '(train_loss, new_writes, loss) <- train_batches len_train_loader writes data_loader
                                        0 0%R 0 None ;;
  local "loss" loss ;;;            (* del loss, output *)
  ret (new_writes, train_loss).

(** *** [test_loop] (lines 122-152) *)

Definition checkpoint_path (epoch : Z) : string :=
  "models/" ++ model_name ++ "_" ++ format_int epoch ++ ".pth".

Definition sample_path (epoch : Z) : string :=
  "images/" ++ model_name ++ "_" ++ format_int epoch ++ ".png".

(** The [for] at lines 127-132; [last_idx] is the binding of [batch_idx]. *)
Fixpoint test_batches (data_loader : list batch) (next_idx : Z) (test_loss : R)
    (last_idx : option Z) : M (R * option Z) :=
  match data_loader with
  | [] => ret (test_loss, last_idx)
  | input :: rest =>
      l <- forward_loss input ;;
      test_batches rest (next_idx + 1) (test_loss + l)%R (Some next_idx)
  end.

Definition test_loop (epoch : Z) (data_loader : list batch) (writes : Z) : M R :=
  set_training false ;;;
  '(test_loss, last_idx) <- test_batches data_loader 0 0%R None ;;
  batch_idx <- local "batch_idx" last_idx ;;
  let deno := (IZR (batch_idx * batch_size config * np_prod input_shape) * np_log2)%R in
  emit (AddScalar "test/bpd" (fdiv test_loss deno) writes) ;;;
  emit (Print (ValidationLine (if use_tpu config then Some ordinal else None)
                 epoch (fdiv test_loss deno))) ;;;
  r <- py_mod (epoch + 1) (save_interval config) ;;
  when (r =? 0)
       (sd <- state_dict ;;
        emit (TorchSave sd (checkpoint_path epoch)) ;;;
        emit (Print (SamplingLine epoch)) ;;;
        emit (SaveImage (rescaling_inv T (sample T sd input_shape)) (sample_path epoch) 5 0)) ;;;
  ret test_loss.

(** *** The epoch loop of [train] (lines 154-174) *)

(** A data loader: the batches it yields when iterated in a given epoch. *)
Definition DataLoader : Type := Z -> list batch.

Variable train_loader test_loader : DataLoader.

(** [pl.ParallelLoader(loader, [device]).per_device_loader(device)] yields
    the batches of [loader]. *)
Definition per_device_loader (l : list batch) : list batch := l.

Definition len (l : list batch) : Z := Z.of_nat (List.length l).

Fixpoint epochs (todo : list Z) (writes : Z) : M Z :=
  match todo with
  | [] => ret writes
  | epoch :: rest =>
      emit (Print (EpochLine epoch)) ;;;
      writes <- (if use_tpu config then
                   train_loop (len (train_loader epoch))
                              (per_device_loader (train_loader epoch)) writes ;;;
                   emit (Print (FinishedTpuLine epoch)) ;;;
                   ret writes
                 else
                   '(new_writes, train_loss) <-
                      train_loop (len (train_loader epoch)) (train_loader epoch) writes ;;
                   let writes := writes + new_writes in
                   emit (Print (FinishedLine epoch train_loss)) ;;;
                   ret writes) ;;
      scheduler_update epoch ;;;
      (if use_tpu config then
         test_loop epoch (per_device_loader (test_loader epoch)) writes
       else
         test_loop epoch (test_loader epoch) writes) ;;;
      epochs rest (writes + 1)
  end.

(** [train], from line 154 on; the value is the final [writes].
    [xm.master_print] (line 160) is recorded as a printed line on every
    replica. *)
Definition train : M Z := epochs (range (max_epochs config)) 0.

End Loop.

Arguments emitted {T A} o.
Arguments final {T A} o.
Arguments value {T A} o.
Arguments Forward {T} training grad_enabled input.
Arguments AddScalar {T} tag value global_step.
Arguments TorchSave {T} state_dict path.
Arguments SaveImage {T} img path nrow padding.
Arguments Print {T} line.
Arguments model_params {T} r.
Arguments optim {T} r.
Arguments training {T} r.
Arguments grad_mode {T} r.
Arguments initial_runtime {T} p o.

(** ** Reading a trace *)

Section Trace.

Context {T : Collaborators}.

(** Tag and write index of the scalars sent to the summary writer. *)
Definition scalar_of (e : event T) : list (string * Z) :=
  match e with
  | AddScalar tag _ step => [(tag, step)]
  | _ => []
  end.

Definition scalars (tr : list (event T)) : list (string * Z) :=
  flat_map scalar_of tr.

(** The values logged under a tag. *)
Definition value_of (tag : string) (e : event T) : list fval :=
  match e with
  | AddScalar tag' v _ => if String.eqb tag tag' then [v] else []
  | _ => []
  end.

Definition logged (tag : string) (tr : list (event T)) : list fval :=
  flat_map (value_of tag) tr.

(** Files written: checkpoints and sample images. *)
Inductive artifact : Type :=
| CheckpointFile (path : string)
| ImageFile (path : string) (nrow padding : Z).

Definition artifact_of (e : event T) : list artifact :=
  match e with
  | TorchSave _ path => [CheckpointFile path]
  | SaveImage _ path nrow padding => [ImageFile path nrow padding]
  | _ => []
  end.

Definition artifacts (tr : list (event T)) : list artifact :=
  flat_map artifact_of tr.

(** Training flushes: one [FlushLine] is printed per flush, in both modes. *)
Definition flush_of (e : event T) : list Z :=
  match e with
  | Print (FlushLine batch_idx _ _) => [batch_idx]
  | _ => []
  end.

Definition flushes (tr : list (event T)) : list Z := flat_map flush_of tr.

(** Forward passes: (training mode, autograd enabled). *)
Definition forward_of (e : event T) : list (bool * bool) :=
  match e with
  | Forward training grad _ => [(training, grad)]
  | _ => []
  end.

Definition forwards (tr : list (event T)) : list (bool * bool) :=
  flat_map forward_of tr.

(** The training loss printed at the end of a single-device epoch. *)
Definition finished_of (e : event T) : list (Z * R) :=
  match e with
  | Print (FinishedLine epoch train_loss) => [(epoch, train_loss)]
  | _ => []
  end.

Definition finished (tr : list (event T)) : list (Z * R) :=
  flat_map finished_of tr.

End Trace.

(** ** A small concrete instance

    Examples are natural numbers, the parameters count the updates applied,
    and the loss of a batch is the sum of its examples. *)

Module Toy.

Definition batch_loss (input : list nat) : R := INR (fold_right Nat.add 0%nat input).

Definition collaborators : Collaborators :=
  {| example := nat;
     params := nat;
     opt_state := Z;
     output := unit;
     image := nat;
     model_forward := fun _ _ _ => tt;
     loss_function := fun input _ => batch_loss input;
     optimizer_step := fun o p _ => (o, S p);
     xm_optimizer_step := fun o p _ => (o, S p);
     scheduler_step := fun epoch _ => epoch + 1;
     sample := fun p _ => p;
     rescaling_inv := fun img => img |}.

Definition start : runtime collaborators := @initial_runtime collaborators 0%nat 0.

(** [n] batches of one example each, every example being [1]. *)
Definition unit_batches (n : nat) : list (batch collaborators) := repeat [1%nat] n.

Definition single_device (print_every save_interval max_epochs : Z) : Config :=
  {| use_tpu := false; batch_size := 1; test_batch_size := 1;
     print_every := print_every; save_interval := save_interval;
     max_epochs := max_epochs |}.

Definition multi_replica (print_every save_interval max_epochs : Z) : Config :=
  {| use_tpu := true; batch_size := 1; test_batch_size := 1;
     print_every := print_every; save_interval := save_interval;
     max_epochs := max_epochs |}.

(** CIFAR-like input shape *)
Definition shape : list Z := [3; 32; 32].

End Toy.

(** ** Samplers and data loaders (lines 38-61 of [train]) *)

Section Loaders.

Variable A : Type.                       (* dataset elements *)

(** [torch.randperm(n, generator=g)], the shuffled order of [n] indices *)
Variable randperm : nat -> list nat.

(** [DistributedSampler(dataset, num_replicas, rank, shuffle)] keeps the
    dataset it is constructed over and uses its length only. *)
Record DistributedSampler : Type := {
  sampled : list A;
  num_replicas : nat;
  rank : nat;
  shuffle : bool
}.

(** [indices[rank:total_size:num_replicas]] *)
Definition strided (indices : list nat) (start step : nat) : list nat :=
  map snd
    (filter (fun p => (start <=? fst p)%nat && ((fst p - start) mod step =? 0)%nat)
            (combine (seq 0 (List.length indices)) indices)).

(** The indices a replica iterates over: the (shuffled) index range of the
    sampled dataset, padded to a multiple of [num_replicas], every
    [num_replicas]-th index from [rank] on. *)
Definition sampler_indices (s : DistributedSampler) : list nat :=
  let n := List.length (sampled s) in
  let num_samples := ((n + num_replicas s - 1) / num_replicas s)%nat in
  let total_size := (num_samples * num_replicas s)%nat in
  let indices := if shuffle s then randperm n else seq 0 n in
  let indices := (indices ++ firstn (total_size - n) indices)%list in
  strided indices (rank s) (num_replicas s).

(** [dataset[i]] *)
Definition getitem (dataset : list A) (i : nat) : result A :=
  match nth_error dataset i with
  | Some x => Ok x
  | None => Raise IndexError
  end.

(** Modelled from the spec: [get_dataloader] of [pcnnpp.data], which is not
    part of [main.py]. The provider exposes its own elements as the
    sequence of inputs, in the order of the sampler when one is given,
    shuffled or in dataset order otherwise. The result is the sequence of
    elements the loader fetches, before they are grouped into batches. *)
Definition get_dataloader (dataset : list A) (sampler : option DistributedSampler)
    (shuffle : bool) : list (result A) :=
  let indices :=
    match sampler with
    | Some s => sampler_indices s
    | None => if shuffle then randperm (List.length dataset)
              else seq 0 (List.length dataset)
    end in
  map (getitem dataset) indices.

Record loaders : Type := {
  train_sampler : option DistributedSampler;
  test_sampler : option DistributedSampler;
  train_items : list (result A);
  test_items : list (result A)
}.

(** Lines 42-61. [world_size] is [xm.xrt_world_size()], [ordinal] is
    [xm.get_ordinal()]. *)
Definition make_loaders (use_tpu : bool) (dataset_train dataset_test : list A)
    (world_size ordinal : nat) : loaders :=
  let train_sampler :=
    if use_tpu then
      Some {| sampled := dataset_train; num_replicas := world_size;
              rank := ordinal; shuffle := true |}
    else None in
  let test_sampler :=
    if use_tpu then
      Some {| sampled := dataset_train; num_replicas := world_size;
              rank := ordinal; shuffle := true |}
    else None in
  {| train_sampler := train_sampler;
     test_sampler := test_sampler;
     train_items := get_dataloader dataset_train train_sampler (negb use_tpu);
     test_items := get_dataloader dataset_test test_sampler (negb use_tpu) |}.

End Loaders.

Arguments sampled {A} d.
Arguments num_replicas {A} d.
Arguments rank {A} d.
Arguments shuffle {A} d.
Arguments train_sampler {A} l.
Arguments test_sampler {A} l.
Arguments train_items {A} l.
Arguments test_items {A} l.

(** ** Quantities the statements speak about *)

Definition loss_sum (losses : list R) : R := fold_left Rplus losses 0%R.

(** Losses of the batches of an evaluation pass: the model is in evaluation
    mode and its parameters are those at the start of the pass. *)
Definition eval_losses (T : Collaborators) (p : params T) (data : list (batch T)) : list R :=
  map (fun input => loss_function T input (model_forward T false p input)) data.

(** Number of examples in a sequence of batches, partial batches included. *)
Definition examples_in {T : Collaborators} (data : list (batch T)) : Z :=
  Z.of_nat (List.length (List.concat data)).

(** The metric of section 4.2 of the specification. *)
Definition bits_per_dim (loss : R) (n_examples d : Z) : R :=
  (loss / (IZR n_examples * IZR d * ln 2))%R.

(** The denominators the code computes. *)
Definition train_deno (config : Config) (input_shape : list Z) : R :=
  (IZR (print_every config * batch_size config * np_prod input_shape) * np_log2)%R.

Definition test_deno (config : Config) (input_shape : list Z) (n_batches : Z) : R :=
  (IZR ((n_batches - 1) * batch_size config * np_prod input_shape) * np_log2)%R.

(** What lines 143-151 write in a given epoch. *)
Definition checkpoint_events (T : Collaborators) (config : Config) (model_name : string)
    (input_shape : list Z) (epoch : Z) (p : params T) : list (event T) :=
  if save_interval config =? 0 then []
  else if (epoch + 1) mod save_interval config =? 0 then
    [TorchSave p (checkpoint_path model_name epoch);
     Print (SamplingLine epoch);
     SaveImage (rescaling_inv T (sample T p input_shape)) (sample_path model_name epoch) 5 0]
  else [].

(** The runtime after [model.train()] / [model.eval()]. *)
Definition in_mode {T : Collaborators} (b : bool) (s : runtime T) : runtime T :=
  {| model_params := model_params s; optim := optim s;
     training := b; grad_mode := grad_mode s |}.

(** What a training flush emits (lines 105-118). *)
Definition flush_events (T : Collaborators) (config : Config) (input_shape : list Z)
    (len_train_loader writes batch_idx : Z) (train_loss : R) (new_writes : Z)
    : list (event T) :=
  let bpd := fdiv train_loss (train_deno config input_shape) in
  ((if use_tpu config then [] else [AddScalar "train/bpd" bpd (writes + new_writes)]) ++
   [Print (FlushLine batch_idx len_train_loader bpd)])%list.

(** [n] consecutive integers from [a] on. *)
Definition consecutive (a : Z) (n : nat) : list Z :=
  map (fun k => a + Z.of_nat k) (seq 0 n).

(** Inputs under which no statement of the loop raises: the two cadences are
    not zero and every loader yields at least one batch in every epoch. *)
Definition runs_clean {T : Collaborators} (config : Config)
    (train_loader test_loader : DataLoader T) (todo : list Z) : Prop :=
  print_every config <> 0 /\ save_interval config <> 0 /\
  (forall epoch, In epoch todo -> train_loader epoch <> [] /\ test_loader epoch <> []).

(** The runtime after the parameter updates of a sequence of training batches,
    and the losses computed on the way. *)
Fixpoint after_training (T : Collaborators) (config : Config) (s : runtime T)
    (data : list (batch T)) : runtime T :=
  match data with
  | [] => s
  | input :: rest =>
      after_training T config (final (optimizer_update T config input s)) rest
  end.

Fixpoint train_losses (T : Collaborators) (config : Config) (s : runtime T)
    (data : list (batch T)) : list R :=
  match data with
  | [] => []
  | input :: rest =>
      loss_function T input (model_forward T (training s) (model_params s) input)
      :: train_losses T config (final (optimizer_update T config input s)) rest
  end.

(** The files an epoch writes. *)
Definition epoch_artifacts (config : Config) (model_name : string) (epoch : Z)
    : list artifact :=
  if (epoch + 1) mod save_interval config =? 0 then
    [CheckpointFile (checkpoint_path model_name epoch);
     ImageFile (sample_path model_name epoch) 5 0]
  else [].

(** A computation keeps an invariant [I] of the runtime and emits only events
    satisfying [Q], whether it returns or raises. *)
Definition preserves {T : Collaborators} {A : Type}
    (I : runtime T -> Prop) (Q : event T -> Prop) (m : M T A) : Prop :=
  forall s, I s -> I (final (m s)) /\ Forall Q (emitted (m s)).

(** No scalar is logged under the training tag. *)
Definition not_train_bpd {T : Collaborators} (e : event T) : Prop :=
  match e with
  | AddScalar tag _ _ => tag <> "train/bpd"
  | _ => True
  end.

(** A forward pass runs with the autograd switch in position [g]. *)
Definition forward_grad {T : Collaborators} (g : bool) (e : event T) : Prop :=
  match e with
  | Forward _ grad _ => grad = g
  | _ => True
  end.

(** The batch indices at which a training pass over [n] batches flushes. *)
Definition flush_indices (config : Config) (n : nat) : list Z :=
  filter (fun batch_idx => (batch_idx + 1) mod print_every config =? 0) (consecutive 0 n).

(** Reading back the decimal suffix of a file name. *)
Definition parse_int (s : string) : option Z :=
  option_map Z.of_int (NilZero.int_of_string s).

(** The forward passes of one epoch: the training batches in training mode,
    then the test batches in evaluation mode, all with autograd switch [g]. *)
Definition epoch_forwards {T : Collaborators} (train_loader test_loader : DataLoader T)
    (g : bool) (epoch : Z) : list (bool * bool) :=
  (repeat (true, g) (List.length (train_loader epoch)) ++
   repeat (false, g) (List.length (test_loader epoch)))%list.

(** The runtime at the end of an epoch whose training pass went over [data]. *)
Definition after_epoch (T : Collaborators) (config : Config) (epoch : Z)
    (data : list (batch T)) (s : runtime T) : runtime T :=
  in_mode false
    (final (scheduler_update T epoch (after_training T config (in_mode true s) data))).

(** ** Facts *)

Section LoopFacts.

Variable T : Collaborators.
Variable config : Config.
Variable model_name : string.
Variable input_shape : list Z.
Variable ordinal : Z.

Lemma ln2_neq_0 : np_log2 <> 0%R.
Proof.
  unfold np_log2. pose proof (ln_lt_2) as H. lra.
Qed.

Lemma deno_zero_iff (units : Z) : (IZR units * np_log2)%R = 0%R <-> units = 0.
Proof.
  split.
  - intros H. apply Rmult_integral in H. destruct H as [H | H].
    + now apply eq_IZR_R0.
    + now apply ln2_neq_0 in H.
  - intros ->. lra.
Qed.

Lemma fdiv_nonfinite_iff (x d : R) : fdiv x d = NonFinite <-> d = 0%R.
Proof.
  unfold fdiv. destruct (Req_dec_T d 0); split; intros; congruence.
Qed.

Lemma fdiv_finite (x d : R) : d <> 0%R -> fdiv x d = Finite (x / d).
Proof.
  unfold fdiv. destruct (Req_dec_T d 0); congruence.
Qed.

(** *** The evaluation pass in closed form *)

Ltac run_monad :=
  repeat (progress
            (cbv beta iota zeta delta [bind ret raise emit py_mod when local state_dict
                                       set_training scheduler_update forward_loss negb];
             cbn [value final emitted app])).

Lemma test_batches_eq (data : list (batch T)) :
  forall (idx : Z) (acc : R) (last : option Z) (s : runtime T),
    test_batches T data idx acc last s =
    {| emitted := map (Forward (training s) (grad_mode s)) data;
       final := s;
       value := Ok (fold_left Rplus
                      (map (fun input => loss_function T input
                              (model_forward T (training s) (model_params s) input)) data)
                      acc,
                    match data with
                    | [] => last
                    | _ :: _ => Some (idx + Z.of_nat (List.length data) - 1)
                    end) |}.
Proof.
  induction data as [| input rest IH]; intros idx acc last s.
  - reflexivity.
  - cbn [test_batches]. unfold bind, forward_loss. cbn [value final emitted].
    rewrite IH. cbn [value final emitted map fold_left app].
    do 3 f_equal. destruct rest as [| input' rest'].
    + cbn. f_equal. lia.
    + f_equal. cbn [List.length]. lia.
Qed.

Lemma test_loop_eq (epoch writes : Z) (input : batch T) (rest : list (batch T))
    (s : runtime T) :
  let data := input :: rest in
  let test_loss := loss_sum (eval_losses T (model_params s) data) in
  let bpd := fdiv test_loss (test_deno config input_shape (Z.of_nat (List.length data))) in
  test_loop T config model_name input_shape ordinal epoch data writes s =
  {| emitted :=
       (map (Forward false (grad_mode s)) data ++
        [AddScalar "test/bpd" bpd writes;
         Print (ValidationLine (if use_tpu config then Some ordinal else None) epoch bpd)] ++
        checkpoint_events T config model_name input_shape epoch (model_params s))%list;
     final := in_mode false s;
     value := if save_interval config =? 0 then Raise ZeroDivisionError
              else Ok test_loss |}.
Proof.
  intros data test_loss bpd. subst data test_loss bpd.
  unfold test_loop, bind at 1 2, set_training. cbn [value final emitted].
  rewrite test_batches_eq.
  cbn [value final emitted training grad_mode model_params].
  unfold loss_sum, eval_losses, test_deno, in_mode, checkpoint_events.
  destruct (save_interval config =? 0) eqn:Hk; run_monad.
  - rewrite Hk. run_monad. reflexivity.
  - rewrite Hk. run_monad.
    destruct ((epoch + 1) mod save_interval config =? 0); run_monad; reflexivity.
Qed.

(** *** The training pass, one batch at a time *)

Lemma train_batches_cons (len_train_loader writes : Z) (input : batch T)
    (rest : list (batch T)) (idx : Z) (acc : R) (nw : Z) (lo : option R) (s : runtime T) :
  print_every config <> 0 ->
  let l := loss_function T input (model_forward T (training s) (model_params s) input) in
  let s1 := final (optimizer_update T config input s) in
  let flush := (idx + 1) mod print_every config =? 0 in
  let k := train_batches T config input_shape len_train_loader writes rest (idx + 1)
             (if flush then 0%R else (acc + l)%R) (if flush then nw + 1 else nw) (Some l) s1 in
  train_batches T config input_shape len_train_loader writes (input :: rest) idx acc nw lo s =
  {| emitted :=
       (Forward (training s) (grad_mode s) input ::
        (if flush then flush_events T config input_shape len_train_loader writes idx
                         (acc + l)%R nw
         else []) ++ emitted k)%list;
     final := final k;
     value := value k |}.
Proof.
  intros Hp l s1 flush k. subst l s1 flush k.
  apply Z.eqb_neq in Hp.
  cbn [train_batches]. unfold flush_events, train_deno.
  run_monad. unfold optimizer_update at 1. run_monad. rewrite Hp. run_monad.
  destruct ((idx + 1) mod print_every config =? 0); [| reflexivity].
  destruct (use_tpu config); run_monad; reflexivity.
Qed.

Lemma optimizer_update_eq (input : batch T) (s : runtime T) :
  optimizer_update T config input s =
  {| emitted := []; final := final (optimizer_update T config input s); value := Ok tt |}
  /\ training (final (optimizer_update T config input s)) = training s
  /\ grad_mode (final (optimizer_update T config input s)) = grad_mode s.
Proof.
  repeat split.
Qed.

Lemma consecutive_cons (a : Z) (n : nat) :
  consecutive a (S n) = a :: consecutive (a + 1) n.
Proof.
  unfold consecutive. cbn [seq map]. f_equal.
  - lia.
  - rewrite <- seq_shift, map_map. apply map_ext. intros k. lia.
Qed.

Lemma consecutive_app (a : Z) (n m : nat) :
  (consecutive a n ++ consecutive (a + Z.of_nat n) m)%list = consecutive a (n + m).
Proof.
  revert a. induction n as [| n IH]; intros a.
  - cbn [app Nat.add]. replace (a + Z.of_nat 0) with a by lia. reflexivity.
  - cbn [Nat.add]. rewrite !consecutive_cons. cbn [app]. f_equal.
    rewrite <- IH. do 2 f_equal. lia.
Qed.

Lemma scalars_app (a b : list (event T)) : scalars (a ++ b) = (scalars a ++ scalars b)%list.
Proof. apply flat_map_app. Qed.

Lemma artifacts_app (a b : list (event T)) :
  artifacts (a ++ b) = (artifacts a ++ artifacts b)%list.
Proof. apply flat_map_app. Qed.

Lemma flushes_app (a b : list (event T)) : flushes (a ++ b) = (flushes a ++ flushes b)%list.
Proof. apply flat_map_app. Qed.

Lemma forwards_app (a b : list (event T)) :
  forwards (a ++ b) = (forwards a ++ forwards b)%list.
Proof. apply flat_map_app. Qed.

Lemma finished_app (a b : list (event T)) :
  finished (a ++ b) = (finished a ++ finished b)%list.
Proof. apply flat_map_app. Qed.

Lemma logged_app (tag : string) (a b : list (event T)) :
  logged tag (a ++ b) = (logged tag a ++ logged tag b)%list.
Proof. apply flat_map_app. Qed.

Lemma flush_events_scalars (len_train_loader writes idx : Z) (acc : R) (nw : Z) :
  scalars (flush_events T config input_shape len_train_loader writes idx acc nw) =
  if use_tpu config then [] else [("train/bpd", writes + nw)].
Proof.
  unfold flush_events. destruct (use_tpu config); reflexivity.
Qed.

Lemma flush_events_flushes (len_train_loader writes idx : Z) (acc : R) (nw : Z) :
  flushes (flush_events T config input_shape len_train_loader writes idx acc nw) = [idx].
Proof.
  unfold flush_events. destruct (use_tpu config); reflexivity.
Qed.

Lemma flush_events_artifacts (len_train_loader writes idx : Z) (acc : R) (nw : Z) :
  artifacts (flush_events T config input_shape len_train_loader writes idx acc nw) = [].
Proof.
  unfold flush_events. destruct (use_tpu config); reflexivity.
Qed.

Lemma flush_events_forwards (len_train_loader writes idx : Z) (acc : R) (nw : Z) :
  forwards (flush_events T config input_shape len_train_loader writes idx acc nw) = [].
Proof.
  unfold flush_events. destruct (use_tpu config); reflexivity.
Qed.

Lemma flush_events_finished (len_train_loader writes idx : Z) (acc : R) (nw : Z) :
  finished (flush_events T config input_shape len_train_loader writes idx acc nw) = [].
Proof.
  unfold flush_events. destruct (use_tpu config); reflexivity.
Qed.

(** The training loop never raises once [print_every] is not zero; it counts
    its flushes, logs them at consecutive write indices (single device only),
    writes no file and leaves mode and autograd switch alone. *)
Lemma train_batches_spec (len_train_loader writes : Z) (data : list (batch T)) :
  print_every config <> 0 ->
  forall (idx : Z) (acc : R) (nw : Z) (lo : option R) (s : runtime T),
    let r := train_batches T config input_shape len_train_loader writes data idx acc nw lo s in
    exists acc' nw' lo',
      value r = Ok (acc', nw', lo')
      /\ nw' = nw + Z.of_nat (List.length (flushes (emitted r)))
      /\ scalars (emitted r) =
         (if use_tpu config then []
          else map (pair "train/bpd")
                   (consecutive (writes + nw) (List.length (flushes (emitted r)))))
      /\ artifacts (emitted r) = []
      /\ finished (emitted r) = []
      /\ (match data with [] => lo' = lo | _ :: _ => lo' <> None end)
      /\ training (final r) = training s
      /\ grad_mode (final r) = grad_mode s
      /\ Forall (fun f => f = (training s, grad_mode s)) (forwards (emitted r)).
Proof.
  intros Hp. induction data as [| input rest IH]; intros idx acc nw lo s r.
  - subst r. exists acc, nw, lo. cbn. rewrite Z.add_0_r.
    destruct (use_tpu config); repeat split; constructor.
  - subst r. rewrite train_batches_cons by assumption.
    cbn [value final emitted].
    destruct (optimizer_update_eq input s) as (_ & Htr & Hgm).
    set (l := loss_function T input _).
    set (s1 := final (optimizer_update T config input s)) in *.
    set (flush := (idx + 1) mod print_every config =? 0).
    specialize (IH (idx + 1) (if flush then 0%R else (acc + l)%R)
                   (if flush then nw + 1 else nw) (Some l) s1).
    cbv zeta in IH.
    set (k := train_batches T config input_shape len_train_loader writes rest _ _ _ _ s1) in *.
    destruct IH as (acc' & nw' & lo' & Hv & Hnw & Hsc & Har & Hfi & Hlo & Htr' & Hgm' & Hfw).
    exists acc', nw', lo'.
    change (Forward (training s) (grad_mode s) input ::
            (if flush then flush_events T config input_shape len_train_loader writes idx
                             (acc + l)%R nw else []) ++ emitted k)%list
      with ([Forward (training s) (grad_mode s) input] ++
            (if flush then flush_events T config input_shape len_train_loader writes idx
                             (acc + l)%R nw else []) ++ emitted k)%list.
    rewrite !scalars_app, !artifacts_app, !flushes_app, !forwards_app, !finished_app.
    rewrite Har, Hfi, Hsc, Htr', Hgm', Htr, Hgm.
    change (scalars [Forward (training s) (grad_mode s) input]) with (@nil (string * Z)).
    change (artifacts [Forward (training s) (grad_mode s) input]) with (@nil artifact).
    change (flushes [Forward (training s) (grad_mode s) input]) with (@nil Z).
    change (finished [Forward (training s) (grad_mode s) input]) with (@nil (Z * R)).
    change (forwards [Forward (training s) (grad_mode s) input])
      with [(training s, grad_mode s)].
    assert (Hlo' : lo' <> None) by (destruct rest; [subst lo' |]; congruence).
    assert (Hfw' : Forall (fun f => f = (training s, grad_mode s))
                     ((training s, grad_mode s) :: forwards (emitted k))).
    { constructor; [reflexivity |]. now rewrite Htr, Hgm in Hfw. }
    destruct flush.
    + rewrite flush_events_scalars, flush_events_flushes, flush_events_artifacts,
        flush_events_forwards, flush_events_finished.
      cbn [app List.length].
      split; [assumption |]. split; [rewrite Hnw; lia |].
      split; [| repeat split; assumption].
      destruct (use_tpu config); [reflexivity |].
      rewrite consecutive_cons. cbn [map app]. do 3 f_equal. lia.
    + cbn [app List.length]. repeat split; assumption.
Qed.

Lemma train_loop_spec (len_train_loader writes : Z) (data : list (batch T)) (s : runtime T) :
  print_every config <> 0 ->
  data <> [] ->
  let r := train_loop T config input_shape len_train_loader data writes s in
  let b := train_batches T config input_shape len_train_loader writes data 0 0%R 0 None
             (in_mode true s) in
  exists nw acc lo,
    value r = Ok (nw, acc)
    /\ value b = Ok (acc, nw, lo)
    /\ emitted r = emitted b
    /\ final r = final b
    /\ nw = Z.of_nat (List.length (flushes (emitted r)))
    /\ scalars (emitted r) =
       (if use_tpu config then []
        else map (pair "train/bpd") (consecutive writes (List.length (flushes (emitted r)))))
    /\ artifacts (emitted r) = []
    /\ finished (emitted r) = []
    /\ grad_mode (final r) = grad_mode s
    /\ Forall (fun f => f = (true, grad_mode s)) (forwards (emitted r)).
Proof.
  intros Hp Hdata r b.
  destruct (train_batches_spec len_train_loader writes data Hp 0 0%R 0 None (in_mode true s))
    as (acc & nw & lo & Hv & Hnw & Hsc & Har & Hfi & Hlo & _ & Hgm & Hfw).
  fold b in Hv, Hnw, Hsc, Har, Hfi, Hgm, Hfw.
  assert (Hr : r = {| emitted := emitted b; final := final b; value := Ok (nw, acc) |}).
  { subst r. unfold train_loop. run_monad. fold (in_mode true s). fold b.
    rewrite Hv. destruct data as [| input rest]; [congruence |].
    destruct lo as [l |]; [| congruence].
    run_monad. rewrite !app_nil_r. reflexivity. }
  exists nw, acc, lo. rewrite Hr. cbn [value final emitted].
  rewrite Z.add_0_r in Hsc. cbn [in_mode grad_mode training] in Hgm, Hfw.
  repeat split; try assumption; lia.
Qed.

Lemma forward_events_silent (tr gm : bool) (data : list (batch T)) :
  let fw := map (@Forward T tr gm) data in
  scalars fw = [] /\ artifacts fw = [] /\ flushes fw = [] /\ finished fw = []
  /\ forwards fw = map (fun _ => (tr, gm)) data.
Proof.
  induction data as [| input rest IH]; cbn.
  - repeat split.
  - destruct IH as (H1 & H2 & H3 & H4 & H5). repeat split; try assumption.
    now f_equal.
Qed.

Lemma checkpoint_events_artifacts (epoch : Z) (p : params T) :
  save_interval config <> 0 ->
  artifacts (checkpoint_events T config model_name input_shape epoch p) =
  epoch_artifacts config model_name epoch
  /\ scalars (checkpoint_events T config model_name input_shape epoch p) = []
  /\ flushes (checkpoint_events T config model_name input_shape epoch p) = []
  /\ finished (checkpoint_events T config model_name input_shape epoch p) = []
  /\ forwards (checkpoint_events T config model_name input_shape epoch p) = [].
Proof.
  intros Hk. apply Z.eqb_neq in Hk. unfold checkpoint_events, epoch_artifacts.
  rewrite Hk. destruct ((epoch + 1) mod save_interval config =? 0); repeat split.
Qed.

Lemma test_loop_spec (epoch writes : Z) (data : list (batch T)) (s : runtime T) :
  save_interval config <> 0 ->
  data <> [] ->
  let r := test_loop T config model_name input_shape ordinal epoch data writes s in
  value r = Ok (loss_sum (eval_losses T (model_params s) data))
  /\ final r = in_mode false s
  /\ scalars (emitted r) = [("test/bpd", writes)]
  /\ artifacts (emitted r) = epoch_artifacts config model_name epoch
  /\ flushes (emitted r) = []
  /\ finished (emitted r) = []
  /\ forwards (emitted r) = map (fun _ => (false, grad_mode s)) data.
Proof.
  intros Hk Hdata r. subst r. destruct data as [| input rest]; [congruence |].
  rewrite test_loop_eq. cbn [value final emitted].
  destruct (checkpoint_events_artifacts epoch (model_params s) Hk) as (A1 & A2 & A3 & A4 & A5).
  destruct (forward_events_silent false (grad_mode s) (input :: rest))
    as (F1 & F2 & F3 & F4 & F5).
  cbv zeta in F1, F2, F3, F4, F5.
  rewrite !scalars_app, !artifacts_app, !flushes_app, !finished_app, !forwards_app.
  rewrite A1, A2, A3, A4, A5, F1, F2, F3, F4, F5.
  apply Z.eqb_neq in Hk. rewrite Hk. cbn [app]. rewrite !app_nil_r.
  repeat split; reflexivity.
Qed.

(** *** One iteration of the epoch loop *)

Lemma epochs_cons (train_loader test_loader : DataLoader T) (epoch : Z) (rest : list Z)
    (writes : Z) (s : runtime T) (nw : Z) (acc tl : R) :
  let r1 := train_loop T config input_shape (len T (train_loader epoch))
              (train_loader epoch) writes s in
  let w1 := if use_tpu config then writes else writes + nw in
  let r2 := test_loop T config model_name input_shape ordinal epoch (test_loader epoch) w1
              (final (scheduler_update T epoch (final r1))) in
  let k := epochs T config model_name input_shape ordinal train_loader test_loader rest
             (w1 + 1) (final r2) in
  value r1 = Ok (nw, acc) ->
  value r2 = Ok tl ->
  epochs T config model_name input_shape ordinal train_loader test_loader (epoch :: rest)
    writes s =
  {| emitted :=
       ([Print (EpochLine epoch)] ++ emitted r1 ++
        [Print (if use_tpu config then FinishedTpuLine epoch else FinishedLine epoch acc)] ++
        emitted r2 ++ emitted k)%list;
     final := final k;
     value := value k |}.
Proof.
  intros r1 w1 r2 k Hv1 Hv2. subst r1 w1 r2 k.
  cbn [epochs]. unfold per_device_loader.
  cbv beta iota zeta delta [scheduler_update] in Hv2. cbn [value final emitted] in Hv2.
  destruct (use_tpu config); run_monad; rewrite Hv1; run_monad; rewrite Hv2; run_monad;
    rewrite <- ?app_assoc; reflexivity.
Qed.


Lemma map_snd_pair (tag : string) (l : list Z) : map snd (map (pair tag) l) = l.
Proof. rewrite map_map. cbn. apply map_id. Qed.

(** *** The whole loop, on inputs that do not raise *)

Lemma epochs_spec (train_loader test_loader : DataLoader T) (todo : list Z) :
  runs_clean config train_loader test_loader todo ->
  forall (writes : Z) (s : runtime T),
    let r := epochs T config model_name input_shape ordinal train_loader test_loader
               todo writes s in
    exists final_writes,
      value r = Ok final_writes
      /\ final_writes =
         writes + Z.of_nat (List.length todo) +
         (if use_tpu config then 0 else Z.of_nat (List.length (flushes (emitted r))))
      /\ map snd (scalars (emitted r)) = consecutive writes (Z.to_nat (final_writes - writes))
      /\ (use_tpu config = true ->
          scalars (emitted r) = map (pair "test/bpd") (consecutive writes (List.length todo)))
      /\ artifacts (emitted r) = flat_map (epoch_artifacts config model_name) todo.
Proof.
  induction todo as [| epoch rest IH]; intros (Hp & Hk & Hload) writes s r.
  - subst r. exists writes. cbn. rewrite Z.add_0_r, Z.sub_diag.
    destruct (use_tpu config); repeat split; lia.
  - destruct (Hload epoch (or_introl eq_refl)) as [Htrain Htest].
    destruct (train_loop_spec (len T (train_loader epoch)) writes (train_loader epoch) s
                Hp Htrain)
      as (nw & acc & lo & Hv1 & _ & _ & _ & Hnw & Hsc1 & Har1 & Hfi1 & _ & _).
    set (r1 := train_loop T config input_shape (len T (train_loader epoch))
                 (train_loader epoch) writes s) in *.
    set (w1 := if use_tpu config then writes else writes + nw).
    set (s2 := final (scheduler_update T epoch (final r1))).
    destruct (test_loop_spec epoch w1 (test_loader epoch) s2 Hk Htest)
      as (Hv2 & _ & Hsc2 & Har2 & Hfl2 & _ & _).
    set (r2 := test_loop T config model_name input_shape ordinal epoch (test_loader epoch)
                 w1 s2) in *.
    assert (Hrest : runs_clean config train_loader test_loader rest).
    { repeat split; try assumption; apply Hload; now right. }
    destruct (IH Hrest (w1 + 1) (final r2)) as (fw & Hvk & Hfw & Hsck & Htpuk & Hark).
    set (k := epochs T config model_name input_shape ordinal train_loader test_loader rest
                (w1 + 1) (final r2)) in *.
    assert (Hr : r = {| emitted :=
                          ([Print (EpochLine epoch)] ++ emitted r1 ++
                           [Print (if use_tpu config then FinishedTpuLine epoch
                                   else FinishedLine epoch acc)] ++
                           emitted r2 ++ emitted k)%list;
                        final := final k; value := value k |}).
    { subst r. apply (epochs_cons train_loader test_loader epoch rest writes s nw acc _ Hv1 Hv2). }
    exists fw. rewrite Hr. cbn [value final emitted].
    rewrite !scalars_app, !artifacts_app, !flushes_app.
    rewrite Hsc2, Har1, Har2, Hfl2, Hark.
    assert (Hs0 : forall l, @scalars T [Print l] = []) by reflexivity.
    assert (Ha0 : forall l, @artifacts T [Print l] = []) by reflexivity.
    assert (Hf0 : @flushes T [Print (EpochLine epoch)] = []) by reflexivity.
    rewrite !Hs0, !Ha0, Hf0.
    assert (Hf1 : flushes [@Print T (if use_tpu config then FinishedTpuLine epoch
                                     else FinishedLine epoch acc)] = []).
    { destruct (use_tpu config); reflexivity. }
    rewrite Hf1. cbn [app flat_map]. rewrite map_app. cbn [map snd].
    rewrite Hsck, Hsc1, length_app. cbn [List.length].
    subst w1. destruct (use_tpu config) eqn:Htpu.
    + split; [assumption |]. split; [lia |]. split; [| split; [| reflexivity]].
      * cbn [map app]. replace (Z.to_nat (fw - writes)) with (S (Z.to_nat (fw - (writes + 1))))
          by lia.
        rewrite consecutive_cons. reflexivity.
      * intros _. rewrite (Htpuk eq_refl). cbn [app map].
        rewrite consecutive_cons. reflexivity.
    + split; [assumption |]. split; [lia |]. split; [| split; [discriminate | reflexivity]].
      rewrite map_snd_pair.
      replace (Z.to_nat (fw - writes))
        with (List.length (flushes (emitted r1)) + S (Z.to_nat (fw - (writes + nw + 1))))%nat
        by lia.
      rewrite <- consecutive_app, consecutive_cons. rewrite <- Hnw. reflexivity.
Qed.

(** *** What is left in the accumulator when the training pass ends *)

Lemma train_batches_app (len_train_loader writes : Z) (xs ys : list (batch T)) :
  print_every config <> 0 ->
  forall (idx : Z) (acc : R) (nw : Z) (lo : option R) (s : runtime T),
  exists acc1 nw1 lo1,
    value (train_batches T config input_shape len_train_loader writes xs idx acc nw lo s) =
    Ok (acc1, nw1, lo1)
    /\ (xs = [] -> acc1 = acc)
    /\ value (train_batches T config input_shape len_train_loader writes (xs ++ ys)
                idx acc nw lo s) =
       value (train_batches T config input_shape len_train_loader writes ys
                (idx + Z.of_nat (List.length xs)) acc1 nw1 lo1 (after_training T config s xs)).
Proof.
  intros Hp. induction xs as [| input rest IH]; intros idx acc nw lo s.
  - exists acc, nw, lo. cbn [app List.length after_training Z.of_nat].
    rewrite Z.add_0_r. repeat split.
  - cbn [app]. rewrite !train_batches_cons by assumption. cbn [value after_training].
    set (l := loss_function T input _).
    set (flush := (idx + 1) mod print_every config =? 0).
    destruct (IH (idx + 1) (if flush then 0%R else (acc + l)%R)
                 (if flush then nw + 1 else nw) (Some l)
                 (final (optimizer_update T config input s)))
      as (acc1 & nw1 & lo1 & Hv & _ & Happ).
    exists acc1, nw1, lo1. split; [assumption |]. split; [discriminate |].
    rewrite Happ. cbn [List.length]. do 2 f_equal. lia.
Qed.

Lemma train_batches_no_flush (len_train_loader writes : Z) (ys : list (batch T)) :
  0 < print_every config ->
  forall (idx : Z) (acc : R) (nw : Z) (lo : option R) (s : runtime T),
    0 <= idx ->
    idx mod print_every config + Z.of_nat (List.length ys) < print_every config ->
    exists lo',
      value (train_batches T config input_shape len_train_loader writes ys idx acc nw lo s) =
      Ok (fold_left Rplus (train_losses T config s ys) acc, nw, lo').
Proof.
  intros Hp. induction ys as [| input rest IH]; intros idx acc nw lo s Hidx Hlt.
  - exists lo. reflexivity.
  - rewrite train_batches_cons by lia. cbn [value train_losses fold_left].
    cbn [List.length] in Hlt.
    assert (Hmod : (idx + 1) mod print_every config = idx mod print_every config + 1).
    { pose proof (Z.mod_pos_bound idx (print_every config) Hp) as Hb.
      rewrite Zplus_mod. rewrite (Z.mod_small 1) by lia. apply Z.mod_small. lia. }
    assert (Hnf : ((idx + 1) mod print_every config =? 0) = false).
    { apply Z.eqb_neq. pose proof (Z.mod_pos_bound idx (print_every config) Hp). lia. }
    rewrite Hnf. apply IH; lia.
Qed.

Lemma train_batches_flush_last (len_train_loader writes : Z) (xs : list (batch T)) :
  print_every config <> 0 ->
  xs <> [] ->
  forall (idx : Z) (acc : R) (nw : Z) (lo : option R) (s : runtime T),
    (idx + Z.of_nat (List.length xs)) mod print_every config = 0 ->
    exists nw' lo',
      value (train_batches T config input_shape len_train_loader writes xs idx acc nw lo s) =
      Ok (0%R, nw', lo').
Proof.
  intros Hp. induction xs as [| input rest IH]; intros Hne idx acc nw lo s Hmod;
    [congruence |].
  rewrite train_batches_cons by assumption. cbn [value].
  destruct rest as [| input' rest'].
  - cbn [List.length] in Hmod. change (Z.of_nat 1) with 1 in Hmod.
    rewrite Hmod. cbn [Z.eqb train_batches]. run_monad. eauto.
  - apply IH; [discriminate |].
    rewrite <- Hmod. f_equal. cbn [List.length]. lia.
Qed.

Lemma train_loop_residual (len_train_loader writes : Z) (pre post : list (batch T))
    (s : runtime T) :
  0 < print_every config ->
  (pre ++ post)%list <> [] ->
  Z.of_nat (List.length pre) mod print_every config = 0 ->
  Z.of_nat (List.length post) < print_every config ->
  exists nw,
    value (train_loop T config input_shape len_train_loader (pre ++ post) writes s) =
    Ok (nw, loss_sum (train_losses T config (after_training T config (in_mode true s) pre)
                        post)).
Proof.
  intros Hp Hne Hpre Hpost.
  assert (Hp' : print_every config <> 0) by lia.
  destruct (train_loop_spec len_train_loader writes (pre ++ post) s Hp' Hne)
    as (nw & acc & lo & Hv & Hb & _).
  exists nw. rewrite Hv. do 2 f_equal.
  destruct (train_batches_app len_train_loader writes pre post Hp' 0 0%R 0 None
              (in_mode true s)) as (acc1 & nw1 & lo1 & Hv1 & Hnil & Happ).
  assert (Hacc1 : acc1 = 0%R).
  { destruct pre as [| input rest]; [now apply Hnil |].
    destruct (train_batches_flush_last len_train_loader writes (input :: rest) Hp'
                ltac:(discriminate) 0 0%R 0 None (in_mode true s) Hpre) as (nw' & lo' & Hv1').
    congruence. }
  subst acc1.
  destruct (train_batches_no_flush len_train_loader writes post Hp
              (0 + Z.of_nat (List.length pre)) 0%R nw1 lo1
              (after_training T config (in_mode true s) pre)) as (lo' & Hv2).
  { lia. }
  { cbn [Z.add]. rewrite Hpre. lia. }
  rewrite Happ, Hv2 in Hb. unfold loss_sum. congruence.
Qed.

(** *** Properties kept by every statement, raising or not *)

Section Preserves.

Variable I : runtime T -> Prop.
Variable Q : event T -> Prop.

Lemma preserves_bind {A B : Type} (m : M T A) (f : A -> M T B) :
  preserves I Q m -> (forall a, preserves I Q (f a)) -> preserves I Q (bind T m f).
Proof.
  intros Hm Hf s Hs. destruct (Hm s Hs) as [Hi Hq]. unfold bind.
  destruct (value (m s)) as [a | e]; cbn [final emitted].
  - destruct (Hf a _ Hi) as [Hi' Hq']. split; [assumption |].
    apply Forall_app. split; assumption.
  - split; assumption.
Qed.

Lemma preserves_pure {A : Type} (m : M T A) :
  (forall s, final (m s) = s /\ emitted (m s) = []) -> preserves I Q m.
Proof.
  intros H s Hs. destruct (H s) as [-> ->]. split; [assumption | constructor].
Qed.

Lemma preserves_ret {A : Type} (a : A) : preserves I Q (ret T a).
Proof. apply preserves_pure. intros s. split; reflexivity. Qed.

Lemma preserves_raise {A : Type} (e : exn) : preserves I Q (@raise T A e).
Proof. apply preserves_pure. intros s. split; reflexivity. Qed.

Lemma preserves_py_mod (a b : Z) : preserves I Q (py_mod T a b).
Proof.
  unfold py_mod. destruct (b =? 0); [apply preserves_raise | apply preserves_ret].
Qed.

Lemma preserves_local {A : Type} (name : string) (v : option A) :
  preserves I Q (local T name v).
Proof.
  destruct v; [apply preserves_ret | apply preserves_raise].
Qed.

Lemma preserves_state_dict : preserves I Q (state_dict T).
Proof. apply preserves_pure. intros s. split; reflexivity. Qed.

Lemma preserves_emit (e : event T) : Q e -> preserves I Q (emit T e).
Proof.
  intros He s Hs. split; [assumption |]. repeat constructor. assumption.
Qed.

Lemma preserves_when (b : bool) (m : M T unit) :
  (b = true -> preserves I Q m) -> preserves I Q (when T b m).
Proof.
  destruct b; cbn [when]; intros H; [now apply H | apply preserves_ret].
Qed.

(** The evaluation pass keeps whatever [model.eval()] and the events it emits keep. *)

Hypothesis I_mode : forall b s, I s -> I (in_mode b s).
Hypothesis Q_forward : forall s input, I s -> Q (Forward (training s) (grad_mode s) input).
Hypothesis Q_test : forall v w, Q (AddScalar "test/bpd" v w).
Hypothesis Q_print : forall l, Q (Print l).
Hypothesis Q_save : forall p path, Q (TorchSave p path).
Hypothesis Q_image : forall img path nrow padding, Q (SaveImage img path nrow padding).

Lemma preserves_set_training (b : bool) : preserves I Q (set_training T b).
Proof.
  intros s Hs. split; [apply (I_mode b s Hs) | constructor].
Qed.

Lemma preserves_forward_loss (input : batch T) : preserves I Q (forward_loss T input).
Proof.
  intros s Hs. split; [assumption |]. repeat constructor. now apply Q_forward.
Qed.

Lemma preserves_test_batches (data : list (batch T)) :
  forall idx acc last, preserves I Q (test_batches T data idx acc last).
Proof.
  induction data as [| input rest IH]; intros idx acc last; cbn [test_batches].
  - apply preserves_ret.
  - apply preserves_bind; [apply preserves_forward_loss | intros l; apply IH].
Qed.

Lemma preserves_test_loop (epoch writes : Z) (data : list (batch T)) :
  preserves I Q (test_loop T config model_name input_shape ordinal epoch data writes).
Proof.
  unfold test_loop.
  apply preserves_bind; [apply preserves_set_training | intros _].
  apply preserves_bind; [apply preserves_test_batches | intros [test_loss last_idx]].
  apply preserves_bind; [apply preserves_local | intros batch_idx].
  apply preserves_bind; [apply preserves_emit, Q_test | intros _].
  apply preserves_bind; [apply preserves_emit, Q_print | intros _].
  apply preserves_bind; [apply preserves_py_mod | intros r].
  apply preserves_bind; [| intros _; apply preserves_ret].
  apply preserves_when. intros _.
  apply preserves_bind; [apply preserves_state_dict | intros sd].
  apply preserves_bind; [apply preserves_emit, Q_save | intros _].
  apply preserves_bind; [apply preserves_emit, Q_print | intros _].
  apply preserves_emit, Q_image.
Qed.

(** The training pass and the epoch loop need the optimizer and the
    scheduler to keep the invariant too. *)

Hypothesis I_optimizer : forall input s, I s -> I (final (optimizer_update T config input s)).
Hypothesis I_scheduler : forall epoch s, I s -> I (final (scheduler_update T epoch s)).
Hypothesis Q_train : use_tpu config = false -> forall v w, Q (AddScalar "train/bpd" v w).

Lemma preserves_optimizer_update (input : batch T) :
  preserves I Q (optimizer_update T config input).
Proof.
  intros s Hs. split; [now apply I_optimizer |].
  destruct (optimizer_update_eq input s) as [-> _]. constructor.
Qed.

Lemma preserves_scheduler_update (epoch : Z) : preserves I Q (scheduler_update T epoch).
Proof.
  intros s Hs. split; [now apply I_scheduler | constructor].
Qed.

Lemma preserves_train_batches (len_train_loader writes : Z) (data : list (batch T)) :
  forall idx acc nw lo,
    preserves I Q (train_batches T config input_shape len_train_loader writes data
                     idx acc nw lo).
Proof.
  induction data as [| input rest IH]; intros idx acc nw lo; cbn [train_batches].
  - apply preserves_ret.
  - apply preserves_bind; [apply preserves_forward_loss | intros l].
    apply preserves_bind; [apply preserves_optimizer_update | intros _].
    apply preserves_bind; [apply preserves_py_mod | intros r].
    destruct (r =? 0); [| apply IH].
    apply preserves_bind.
    + apply preserves_when. intros Htpu. apply preserves_emit, Q_train.
      now apply negb_true_iff.
    + intros _. apply preserves_bind; [apply preserves_emit, Q_print | intros _; apply IH].
Qed.

Lemma preserves_train_loop (len_train_loader writes : Z) (data : list (batch T)) :
  preserves I Q (train_loop T config input_shape len_train_loader data writes).
Proof.
  unfold train_loop.
  apply preserves_bind; [apply preserves_set_training | intros _].
  apply preserves_bind; [apply preserves_train_batches | intros [[acc nw] lo]].
  apply preserves_bind; [apply preserves_local | intros _; apply preserves_ret].
Qed.

Lemma preserves_epochs (train_loader test_loader : DataLoader T) (todo : list Z) :
  forall writes,
    preserves I Q (epochs T config model_name input_shape ordinal train_loader test_loader
                     todo writes).
Proof.
  induction todo as [| epoch rest IH]; intros writes; cbn [epochs].
  - apply preserves_ret.
  - apply preserves_bind; [apply preserves_emit, Q_print | intros _].
    apply preserves_bind.
    + case (use_tpu config).
      * apply preserves_bind; [apply preserves_train_loop | intros _].
        apply preserves_bind; [apply preserves_emit, Q_print | intros _; apply preserves_ret].
      * apply preserves_bind; [apply preserves_train_loop | intros [nw acc]].
        apply preserves_bind; [apply preserves_emit, Q_print | intros _; apply preserves_ret].
    + intros writes'.
      apply preserves_bind; [apply preserves_scheduler_update | intros _].
      apply preserves_bind; [| intros _; apply IH].
      case (use_tpu config); apply preserves_test_loop.
Qed.

End Preserves.

End LoopFacts.


(** ** The test metric (lines 126-135) *)

Lemma test_loop_logged (T : Collaborators) (config : Config) (model_name : string)
    (input_shape : list Z) (ordinal epoch writes : Z) (data : list (batch T))
    (s : runtime T) :
  data <> [] ->
  logged "test/bpd"
    (emitted (test_loop T config model_name input_shape ordinal epoch data writes s)) =
  [fdiv (loss_sum (eval_losses T (model_params s) data))
        (test_deno config input_shape (Z.of_nat (List.length data)))].
Proof.
  intros Hdata. destruct data as [| input rest]; [congruence |].
  rewrite test_loop_eq. cbn [emitted]. rewrite !logged_app.
  assert (Hfw : forall l : list (batch T),
             logged "test/bpd" (map (@Forward T false (grad_mode s)) l) = []).
  { induction l as [| x l IH]; [reflexivity | exact IH]. }
  rewrite Hfw. cbn [app].
  assert (Hck : logged "test/bpd"
                  (checkpoint_events T config model_name input_shape epoch (model_params s))
                = []).
  { unfold checkpoint_events. destruct (save_interval config =? 0); [reflexivity |].
    destruct ((epoch + 1) mod save_interval config =? 0); reflexivity. }
  rewrite Hck. reflexivity.
Qed.

Lemma test_loop_raises_only_on_save_interval (T : Collaborators) (config : Config)
    (model_name : string) (input_shape : list Z) (ordinal epoch writes : Z)
    (data : list (batch T)) (s : runtime T) (e : exn) :
  data <> [] ->
  value (test_loop T config model_name input_shape ordinal epoch data writes s) = Raise e ->
  e = ZeroDivisionError /\ save_interval config = 0.
Proof.
  intros Hdata. destruct data as [| input rest]; [congruence |].
  rewrite test_loop_eq. cbn [value].
  destruct (save_interval config =? 0) eqn:Hk; [| discriminate].
  intros [= <-]. split; [reflexivity | now apply Z.eqb_eq].
Qed.

(** Without a test batch, line 134 reads [batch_idx] before it was ever
    assigned. *)
Lemma test_loop_empty_loader (T : Collaborators) (config : Config) (model_name : string)
    (input_shape : list Z) (ordinal epoch writes : Z) (s : runtime T) :
  let r := test_loop T config model_name input_shape ordinal epoch [] writes s in
  value r = Raise (UnboundLocalError "batch_idx") /\ emitted r = [].
Proof. split; reflexivity. Qed.

(** The training flush divides by [print_every * batch_size * D * ln 2], which
    depends on the window only through its number of examples. *)
Lemma train_flush_metric_scale_invariant (c1 c2 : Config) (input_shape : list Z) (loss : R) :
  print_every c1 = 2 * print_every c2 ->
  batch_size c2 = 2 * batch_size c1 ->
  fdiv loss (train_deno c1 input_shape) = fdiv loss (train_deno c2 input_shape).
Proof.
  intros Hp Hb. unfold train_deno. rewrite Hp, Hb. do 3 f_equal. ring.
Qed.

(** C1 (code at the failing input). One evaluation pass over two test batches
    of one example each, with [batch_size = 1] and one dimension per example:
    the pass accumulates a loss of 2 over 2 examples, yet the value it logs is
    [2 / ln 2], not the bits per dimension [2 / (2 * 1 * ln 2)] over the
    examples seen: the denominator counts [batch_idx * batch_size] examples,
    with [batch_idx] the index of the last batch. *)
Theorem test_bpd_undercounts_examples :
  let config := Toy.single_device 1 1 1 in
  let data := Toy.unit_batches 2 in
  let r := test_loop Toy.collaborators config "m" [1; 1; 1] 0 0 data 0 Toy.start in
  examples_in data = 2
  /\ loss_sum (eval_losses Toy.collaborators (model_params Toy.start) data) = 2%R
  /\ logged "test/bpd" (emitted r) = [Finite (2 / ln 2)]
  /\ (2 / ln 2)%R <> bits_per_dim 2 (examples_in data) (np_prod [1; 1; 1]).
Proof.
  intros config data r.
  assert (Hloss : loss_sum (eval_losses Toy.collaborators (model_params Toy.start) data)
                  = 2%R).
  { unfold loss_sum, data. cbn. lra. }
  assert (Hln : ln 2 <> 0%R) by exact ln2_neq_0.
  split; [reflexivity |]. split; [exact Hloss |]. split.
  - subst r. rewrite test_loop_logged by discriminate. rewrite Hloss.
    unfold test_deno, np_log2. cbn [List.length data Toy.unit_batches repeat].
    change (IZR ((Z.of_nat 2 - 1) * batch_size config * np_prod [1; 1; 1])) with 1%R.
    rewrite fdiv_finite by lra. do 2 f_equal. field. exact Hln.
  - unfold bits_per_dim. change (IZR (examples_in data)) with 2%R.
    change (IZR (np_prod [1; 1; 1])) with 1%R.
    intros H. apply Hln.
    assert (H' : (2 / ln 2 * ln 2 = 2 / (2 * 1 * ln 2) * ln 2)%R) by (now rewrite <- H).
    field_simplify in H'; [| exact Hln | exact Hln]. lra.
Qed.




(** C7 (code at the failing input). The same four examples with the same total
    loss, once as four batches with [batch_size = 1] and once as two batches
    with [batch_size = 2]: the evaluation pass logs [4 / (3 * ln 2)] in the
    first run and [4 / (2 * ln 2)] in the second. *)
Theorem test_bpd_depends_on_batch_shape :
  let config b := {| use_tpu := false; batch_size := b; test_batch_size := b;
                     print_every := 1; save_interval := 1; max_epochs := 1 |} in
  let small := repeat [1%nat] 4 in
  let large := repeat [1%nat; 1%nat] 2 in
  let run b data := test_loop Toy.collaborators (config b) "m" [1; 1; 1] 0 0 data 0
                      Toy.start in
  List.concat small = List.concat large
  /\ loss_sum (eval_losses Toy.collaborators (model_params Toy.start) small) =
     loss_sum (eval_losses Toy.collaborators (model_params Toy.start) large)
  /\ logged "test/bpd" (emitted (run 1 small)) = [Finite (4 / (3 * ln 2))]
  /\ logged "test/bpd" (emitted (run 2 large)) = [Finite (4 / (2 * ln 2))]
  /\ (4 / (3 * ln 2))%R <> (4 / (2 * ln 2))%R.
Proof.
  intros config small large run.
  assert (Hln : ln 2 <> 0%R) by exact ln2_neq_0.
  assert (Hs : loss_sum (eval_losses Toy.collaborators (model_params Toy.start) small)
               = 4%R).
  { unfold loss_sum, small. cbn. lra. }
  assert (Hl : loss_sum (eval_losses Toy.collaborators (model_params Toy.start) large)
               = 4%R).
  { unfold loss_sum, large. cbn. lra. }
  split; [reflexivity |]. split; [congruence |]. split; [| split].
  - subst run. cbv beta. rewrite test_loop_logged by discriminate. rewrite Hs.
    unfold test_deno, np_log2.
    change (IZR ((Z.of_nat (List.length small) - 1) * batch_size (config 1)
                 * np_prod [1; 1; 1])) with 3%R.
    rewrite fdiv_finite by lra. reflexivity.
  - subst run. cbv beta. rewrite test_loop_logged by discriminate. rewrite Hl.
    unfold test_deno, np_log2.
    change (IZR ((Z.of_nat (List.length large) - 1) * batch_size (config 2)
                 * np_prod [1; 1; 1])) with 2%R.
    rewrite fdiv_finite by lra. reflexivity.
  - intros H.
    assert (H' : (4 / (3 * ln 2) * (6 * ln 2) = 4 / (2 * ln 2) * (6 * ln 2))%R)
      by (now rewrite H).
    field_simplify in H'; [| exact Hln | exact Hln]. lra.
Qed.

(** ** The write index (lines 154-174) *)

Lemma consecutive_range (n : Z) : consecutive 0 (List.length (range n)) = range n.
Proof.
  unfold consecutive, range. rewrite length_map, length_seq. apply map_ext.
  intros k. lia.
Qed.

(** C3 (counterexample). A multi-replica run of one epoch with
    [print_every = 1] over two training batches flushes twice, and the write
    index ends at 1: the flushes did not advance it. *)
Lemma tpu_flushes_do_not_advance_write_index :
  let r := train Toy.collaborators (Toy.multi_replica 1 1 1) "m" Toy.shape 0
             (fun _ => Toy.unit_batches 2) (fun _ => Toy.unit_batches 2) Toy.start in
  flushes (emitted r) = [0; 1]
  /\ value r = Ok 1
  /\ value r <> Ok (0 + Z.of_nat (List.length (flushes (emitted r))) + 1).
Proof.
  split; [vm_compute; reflexivity |]. split; [vm_compute; reflexivity |].
  vm_compute. discriminate.
Qed.

(** C3 (amended). On inputs that do not raise, from any epoch on: the loop
    ends with a write index that is the one it started from, plus one per
    epoch, plus (on a single device only) one per training flush; the scalars
    it logs carry exactly the write indices in between, each once and in
    increasing order; so the index never decreases. On several replicas the
    flushes do not advance the index. *)
Theorem write_index_advance (T : Collaborators) (config : Config) (model_name : string)
    (input_shape : list Z) (ordinal : Z) (train_loader test_loader : DataLoader T)
    (todo : list Z) (writes : Z) (s : runtime T) :
  runs_clean config train_loader test_loader todo ->
  let r := epochs T config model_name input_shape ordinal train_loader test_loader
             todo writes s in
  exists final_writes,
    value r = Ok final_writes
    /\ final_writes =
       writes + Z.of_nat (List.length todo) +
       (if use_tpu config then 0 else Z.of_nat (List.length (flushes (emitted r))))
    /\ map snd (scalars (emitted r)) = consecutive writes (Z.to_nat (final_writes - writes))
    /\ writes <= final_writes.
Proof.
  intros Hclean r.
  destruct (epochs_spec T config model_name input_shape ordinal train_loader test_loader
              todo Hclean writes s) as (fw & Hv & Hfw & Hsc & _ & _).
  exists fw. repeat split; try assumption.
  fold r in Hfw. destruct (use_tpu config); lia.
Qed.

Lemma toy_runs_clean (tpu : bool) (p k e : Z) (n m : nat) :
  p <> 0 -> k <> 0 ->
  runs_clean
    {| use_tpu := tpu; batch_size := 1; test_batch_size := 1; print_every := p;
       save_interval := k; max_epochs := e |}
    (fun _ => Toy.unit_batches (S n)) (fun _ => Toy.unit_batches (S m)) (range e).
Proof.
  intros Hp Hk. repeat split; try assumption; discriminate.
Qed.

Lemma write_index_advance_witness :
  let config := Toy.single_device 2 1 1 in
  let train_loader := fun _ : Z => Toy.unit_batches 4 in
  let test_loader := fun _ : Z => Toy.unit_batches 2 in
  let r := epochs Toy.collaborators config "m" Toy.shape 0 train_loader test_loader
             (range 1) 0 Toy.start in
  runs_clean config train_loader test_loader (range 1)
  /\ exists final_writes,
       value r = Ok final_writes
       /\ final_writes =
          0 + Z.of_nat (List.length (range 1)) +
          (if use_tpu config then 0 else Z.of_nat (List.length (flushes (emitted r))))
       /\ map snd (scalars (emitted r)) = consecutive 0 (Z.to_nat (final_writes - 0))
       /\ 0 <= final_writes.
Proof.
  intros config train_loader test_loader r.
  assert (H : runs_clean config train_loader test_loader (range 1))
    by (apply (toy_runs_clean false 2 1 1 3 1); lia).
  split; [exact H |].
  exact (write_index_advance Toy.collaborators config "m" Toy.shape 0
           train_loader test_loader (range 1) 0 Toy.start H).
Defined.

(** C8. On several replicas no scalar is ever logged under ["train/bpd"],
    whether the run completes or raises; and on inputs that do not raise the
    run ends with a write index equal to the number of epochs, whatever the
    number of flushes, having logged exactly one ["test/bpd"] scalar per
    epoch, the one of epoch [e] at write index [e]. *)
Theorem tpu_write_index (T : Collaborators) (config : Config) (model_name : string)
    (input_shape : list Z) (ordinal : Z) (train_loader test_loader : DataLoader T) :
  use_tpu config = true ->
  (forall todo writes s,
      Forall not_train_bpd
        (emitted (epochs T config model_name input_shape ordinal train_loader test_loader
                    todo writes s)))
  /\ (runs_clean config train_loader test_loader (range (max_epochs config)) ->
      forall s,
        let r := train T config model_name input_shape ordinal train_loader test_loader s in
        value r = Ok (Z.of_nat (List.length (range (max_epochs config))))
        /\ scalars (emitted r) =
           map (fun epoch => ("test/bpd", epoch)) (range (max_epochs config))).
Proof.
  intros Htpu. split.
  - intros todo writes s.
    apply (preserves_epochs T config model_name input_shape ordinal
             (fun _ => True) not_train_bpd); try (intros; exact Logic.I).
    + intros v w. cbn. discriminate.
    + congruence.
  - intros Hclean s r.
    destruct (epochs_spec T config model_name input_shape ordinal train_loader test_loader
                _ Hclean 0 s) as (fw & Hv & Hfw & _ & Hsc & _).
    rewrite Htpu in Hfw. fold (train T config model_name input_shape ordinal train_loader
                                 test_loader s) in Hv, Hsc. fold r in Hv, Hsc.
    split.
    + rewrite Hv, Hfw. f_equal. lia.
    + rewrite (Hsc Htpu), consecutive_range. reflexivity.
Qed.

Lemma tpu_write_index_witness :
  let config := Toy.multi_replica 1 2 3 in
  let train_loader := fun _ : Z => Toy.unit_batches 2 in
  let test_loader := fun _ : Z => Toy.unit_batches 2 in
  let r := train Toy.collaborators config "m" Toy.shape 0 train_loader test_loader
             Toy.start in
  use_tpu config = true
  /\ runs_clean config train_loader test_loader (range (max_epochs config))
  /\ List.length (flushes (emitted r)) = 6%nat
  /\ value r = Ok (Z.of_nat (List.length (range (max_epochs config))))
  /\ scalars (emitted r) = map (fun epoch => ("test/bpd", epoch)) (range (max_epochs config)).
Proof.
  intros config train_loader test_loader r.
  assert (Hclean : runs_clean config train_loader test_loader (range (max_epochs config)))
    by (apply (toy_runs_clean true 1 2 3 1 1); lia).
  split; [reflexivity |]. split; [exact Hclean |]. split; [vm_compute; reflexivity |].
  exact (proj2 (tpu_write_index Toy.collaborators config "m" Toy.shape 0
                  train_loader test_loader eq_refl) Hclean Toy.start).
Defined.

(** ** Checkpoints and sample images (lines 143-151) *)

(** C4. On inputs that do not raise, the files a run writes are, epoch after
    epoch, the checkpoint [models/{model_name}_{e}.pth] followed by the image
    [images/{model_name}_{e}.png] (five images per row, no padding) for the
    epochs [e] with [(e + 1) mod save_interval = 0], and nothing for the other
    epochs; the evaluation pass of an epoch writes its two files exactly when
    that condition holds. *)
Theorem checkpoint_cadence (T : Collaborators) (config : Config) (model_name : string)
    (input_shape : list Z) (ordinal : Z) (train_loader test_loader : DataLoader T)
    (s : runtime T) :
  runs_clean config train_loader test_loader (range (max_epochs config)) ->
  let files epoch :=
    [CheckpointFile ("models/" ++ model_name ++ "_" ++ format_int epoch ++ ".pth");
     ImageFile ("images/" ++ model_name ++ "_" ++ format_int epoch ++ ".png") 5 0] in
  artifacts (emitted (train T config model_name input_shape ordinal train_loader
                        test_loader s)) =
  flat_map (fun epoch => if (epoch + 1) mod save_interval config =? 0 then files epoch
                         else [])
           (range (max_epochs config))
  /\ forall epoch writes s',
       In epoch (range (max_epochs config)) ->
       let written :=
         artifacts (emitted (test_loop T config model_name input_shape ordinal epoch
                               (test_loader epoch) writes s')) in
       ((epoch + 1) mod save_interval config = 0 -> written = files epoch)
       /\ ((epoch + 1) mod save_interval config <> 0 -> written = []).
Proof.
  intros Hclean files. split.
  - destruct (epochs_spec T config model_name input_shape ordinal train_loader test_loader
                _ Hclean 0 s) as (fw & _ & _ & _ & _ & Har).
    exact Har.
  - intros epoch writes s' Hin written.
    destruct Hclean as (_ & Hk & Hload). destruct (Hload epoch Hin) as [_ Htest].
    destruct (test_loop_spec T config model_name input_shape ordinal epoch writes
                (test_loader epoch) s' Hk Htest) as (_ & _ & _ & Har & _).
    subst written. rewrite Har. unfold epoch_artifacts. split; intros Hmod.
    + rewrite Hmod. reflexivity.
    + apply Z.eqb_neq in Hmod. rewrite Hmod. reflexivity.
Qed.

Lemma checkpoint_cadence_witness :
  let config := Toy.single_device 2 3 5 in
  let train_loader := fun _ : Z => Toy.unit_batches 4 in
  let test_loader := fun _ : Z => Toy.unit_batches 2 in
  runs_clean config train_loader test_loader (range (max_epochs config))
  /\ artifacts (emitted (train Toy.collaborators config "m" Toy.shape 0 train_loader
                           test_loader Toy.start)) =
     [CheckpointFile "models/m_2.pth"; ImageFile "images/m_2.png" 5 0].
Proof.
  intros config train_loader test_loader.
  assert (Hclean : runs_clean config train_loader test_loader (range (max_epochs config)))
    by (apply (toy_runs_clean false 2 3 5 3 1); lia).
  split; [exact Hclean |].
  exact (proj1 (checkpoint_cadence Toy.collaborators config "m" Toy.shape 0
                  train_loader test_loader Toy.start Hclean)).
Defined.

(** ** The one-epoch scenario *)

(** C6 (counterexample). In the scenario the write index ends at 3, not 2. *)
Lemma scenario_write_index_is_not_two :
  let r := train Toy.collaborators (Toy.single_device 2 1 1) "m" Toy.shape 0
             (fun _ => Toy.unit_batches 4) (fun _ => Toy.unit_batches 2) Toy.start in
  value r = Ok 3 /\ value r <> Ok 2.
Proof.
  split; [vm_compute; reflexivity |]. vm_compute. discriminate.
Qed.

(** C6 (amended). A single-device run with [max_epochs = 1],
    [save_interval = 1], [print_every = 2], four training batches and two test
    batches writes exactly one checkpoint and one sample image, logs exactly
    two training flushes (at write indices 0 and 1) and one test value (at
    write index 2), and ends with the write index at 3. *)
Theorem scenario_one_epoch (T : Collaborators) (batch_size test_batch_size : Z)
    (model_name : string) (input_shape : list Z) (ordinal : Z)
    (b1 b2 b3 b4 t1 t2 : batch T) (s : runtime T) :
  let config := {| use_tpu := false; batch_size := batch_size;
                   test_batch_size := test_batch_size; print_every := 2;
                   save_interval := 1; max_epochs := 1 |} in
  let r := train T config model_name input_shape ordinal
             (fun _ => [b1; b2; b3; b4]) (fun _ => [t1; t2]) s in
  artifacts (emitted r) =
    [CheckpointFile ("models/" ++ model_name ++ "_0.pth");
     ImageFile ("images/" ++ model_name ++ "_0.png") 5 0]
  /\ scalars (emitted r) = [("train/bpd", 0); ("train/bpd", 1); ("test/bpd", 2)]
  /\ List.length (flushes (emitted r)) = 2%nat
  /\ value r = Ok 3.
Proof.
  intros config r. repeat split.
Qed.

(** ** What the evaluation pass leaves alone (lines 122-133) *)

Lemma test_loop_final (T : Collaborators) (config : Config) (model_name : string)
    (input_shape : list Z) (ordinal epoch writes : Z) (data : list (batch T))
    (s : runtime T) :
  final (test_loop T config model_name input_shape ordinal epoch data writes s) =
  in_mode false s.
Proof.
  destruct data as [| input rest]; [reflexivity |]. now rewrite test_loop_eq.
Qed.

Lemma test_loop_forwards (T : Collaborators) (config : Config) (model_name : string)
    (input_shape : list Z) (ordinal epoch writes : Z) (data : list (batch T))
    (s : runtime T) :
  forwards (emitted (test_loop T config model_name input_shape ordinal epoch data writes s)) =
  map (fun _ => (false, grad_mode s)) data.
Proof.
  destruct data as [| input rest]; [reflexivity |].
  rewrite test_loop_eq. cbn [emitted]. rewrite !forwards_app.
  destruct (forward_events_silent T false (grad_mode s) (input :: rest))
    as (_ & _ & _ & _ & Hfw).
  cbv zeta in Hfw. rewrite Hfw.
  assert (Hck : forwards (checkpoint_events T config model_name input_shape epoch
                            (model_params s)) = []).
  { unfold checkpoint_events. destruct (save_interval config =? 0); [reflexivity |].
    destruct ((epoch + 1) mod save_interval config =? 0); reflexivity. }
  rewrite Hck. cbn [forwards flat_map forward_of app]. now rewrite app_nil_r.
Qed.

Lemma epoch_params (T : Collaborators) (config : Config) (model_name : string)
    (input_shape : list Z) (ordinal : Z) (train_loader test_loader : DataLoader T)
    (epoch writes : Z) (s : runtime T) :
  model_params
    (final (epochs T config model_name input_shape ordinal train_loader test_loader
              [epoch] writes s)) =
  model_params
    (final (train_loop T config input_shape (len T (train_loader epoch))
              (train_loader epoch) writes s)).
Proof.
  cbn [epochs]. unfold per_device_loader, bind, emit, ret, scheduler_update.
  cbn [value final emitted].
  destruct (use_tpu config);
    cbn [value final emitted];
    destruct (value (train_loop T config input_shape (len T (train_loader epoch))
                       (train_loader epoch) writes s)) as [[nw acc] | e];
    cbn [value final emitted]; try reflexivity;
    match goal with
    | |- context [test_loop T config model_name input_shape ordinal epoch ?d ?w ?s'] =>
        pose proof (test_loop_final T config model_name input_shape ordinal epoch w d s')
          as Hfin;
        destruct (value (test_loop T config model_name input_shape ordinal epoch d w s'));
        cbn [value final emitted]; rewrite Hfin; reflexivity
    end.
Qed.

(** C5 (counterexample). In the one-epoch scenario started from a fresh
    runtime, the two forward passes of the evaluation pass (model in
    evaluation mode) run with the autograd switch on, as the four of the
    training pass do. *)
Lemma evaluation_forward_passes_track_gradients :
  let r := train Toy.collaborators (Toy.single_device 2 1 1) "m" Toy.shape 0
             (fun _ => Toy.unit_batches 4) (fun _ => Toy.unit_batches 2) Toy.start in
  forwards (emitted r) =
  [(true, true); (true, true); (true, true); (true, true); (false, true); (false, true)].
Proof.
  vm_compute. reflexivity.
Qed.

(** C5 (amended). Every evaluation pass iterates the test batches with the
    model in evaluation mode and leaves the parameters of the model and the
    state of the optimizer unchanged; gradient computation is not disabled:
    each forward pass of a run started from a fresh runtime has the autograd
    switch on. Within an epoch the parameters are those the training pass
    left: only its optimizer steps change them. *)
Theorem evaluation_pass_frame (T : Collaborators) (config : Config) (model_name : string)
    (input_shape : list Z) (ordinal : Z) :
  (forall epoch writes data s,
      let r := test_loop T config model_name input_shape ordinal epoch data writes s in
      model_params (final r) = model_params s
      /\ optim (final r) = optim s
      /\ forwards (emitted r) = map (fun _ => (false, grad_mode s)) data)
  /\ (forall train_loader test_loader p o,
         Forall (forward_grad true)
           (emitted (train T config model_name input_shape ordinal train_loader test_loader
                       (initial_runtime p o))))
  /\ (forall train_loader test_loader epoch writes s,
         model_params
           (final (epochs T config model_name input_shape ordinal train_loader test_loader
                     [epoch] writes s)) =
         model_params
           (final (train_loop T config input_shape (len T (train_loader epoch))
                     (train_loader epoch) writes s))).
Proof.
  split; [| split].
  - intros epoch writes data s r. subst r. rewrite test_loop_final, test_loop_forwards.
    repeat split.
  - intros train_loader test_loader p o.
    apply (preserves_epochs T config model_name input_shape ordinal
             (fun s => grad_mode s = true) (forward_grad true));
      try (intros; exact Logic.I); try (intros; assumption); reflexivity.
  - intros. apply epoch_params.
Qed.

(** ** The training loss printed at the end of an epoch (lines 116-120, 162-167) *)

(** C10. On a single device, let the training batches of an epoch be [pre]
    followed by [post], where [pre] ends on a flush (its length is a multiple
    of [print_every]) and [post] is shorter than a flush window. The loss the
    training pass returns, and the epoch loop prints, is the sum of the losses
    of the batches of [post] alone; when the number of batches is a multiple
    of [print_every] ([post] is empty) it is 0. *)
Theorem train_loss_is_residual (T : Collaborators) (config : Config) (model_name : string)
    (input_shape : list Z) (ordinal : Z) (train_loader test_loader : DataLoader T)
    (epoch : Z) (rest : list Z) (writes : Z) (pre post : list (batch T)) (s : runtime T) :
  use_tpu config = false ->
  0 < print_every config ->
  save_interval config <> 0 ->
  train_loader epoch = (pre ++ post)%list ->
  (pre ++ post)%list <> [] ->
  test_loader epoch <> [] ->
  Z.of_nat (List.length pre) mod print_every config = 0 ->
  Z.of_nat (List.length post) < print_every config ->
  let residual :=
    loss_sum (train_losses T config (after_training T config (in_mode true s) pre) post) in
  (exists new_writes,
      value (train_loop T config input_shape (len T (train_loader epoch))
               (train_loader epoch) writes s) = Ok (new_writes, residual))
  /\ hd_error (finished (emitted (epochs T config model_name input_shape ordinal
                                    train_loader test_loader (epoch :: rest) writes s))) =
     Some (epoch, residual)
  /\ (post = [] -> residual = 0%R).
Proof.
  intros Htpu Hp Hk Hdata Hne Htest Hpre Hpost residual.
  assert (Hp' : print_every config <> 0) by lia.
  destruct (train_loop_residual T config input_shape (len T (train_loader epoch)) writes
              pre post s Hp Hne Hpre Hpost) as (nw & Hv).
  rewrite <- Hdata in Hv, Hne. fold residual in Hv.
  split; [exists nw; exact Hv |]. split.
  - destruct (train_loop_spec T config input_shape (len T (train_loader epoch)) writes
                (train_loader epoch) s Hp' Hne)
      as (nw' & acc & lo & Hv' & _ & _ & _ & _ & _ & _ & Hfi1 & _).
    assert (Hacc : acc = residual) by congruence. subst acc.
    set (w1 := if use_tpu config then writes else writes + nw').
    destruct (test_loop_spec T config model_name input_shape ordinal epoch w1
                (test_loader epoch)
                (final (scheduler_update T epoch
                          (final (train_loop T config input_shape
                                    (len T (train_loader epoch)) (train_loader epoch)
                                    writes s))))
                Hk Htest) as (Hv2 & _ & _ & _ & _ & Hfi2 & _).
    rewrite (epochs_cons T config model_name input_shape ordinal train_loader test_loader
               epoch rest writes s nw' residual _ Hv' Hv2).
    cbn [emitted]. rewrite !finished_app. fold w1. rewrite Hfi1, Hfi2, Htpu.
    reflexivity.
  - intros ->. reflexivity.
Qed.

Lemma train_loss_is_residual_witness :
  let config := Toy.single_device 2 1 1 in
  let train_loader := fun _ : Z => (Toy.unit_batches 2 ++ Toy.unit_batches 1)%list in
  let test_loader := fun _ : Z => Toy.unit_batches 2 in
  let residual :=
    loss_sum (train_losses Toy.collaborators config
                (after_training Toy.collaborators config (in_mode true Toy.start)
                   (Toy.unit_batches 2))
                (Toy.unit_batches 1)) in
  residual = 1%R
  /\ (exists new_writes,
         value (train_loop Toy.collaborators config Toy.shape
                  (len Toy.collaborators (train_loader 0)) (train_loader 0) 0 Toy.start) =
         Ok (new_writes, residual))
  /\ hd_error (finished (emitted (epochs Toy.collaborators config "m" Toy.shape 0
                                    train_loader test_loader [0] 0 Toy.start))) =
     Some (0, residual)
  /\ (Toy.unit_batches 1 = [] -> residual = 0%R).
Proof.
  intros config train_loader test_loader residual.
  split; [subst residual; unfold loss_sum; cbn; lra |].
  apply (train_loss_is_residual Toy.collaborators config "m" Toy.shape 0
           train_loader test_loader 0 [] 0 (Toy.unit_batches 2) (Toy.unit_batches 1)
           Toy.start).
  - reflexivity.
  - reflexivity.
  - discriminate.
  - reflexivity.
  - discriminate.
  - discriminate.
  - reflexivity.
  - reflexivity.
Defined.

(** ** The samplers of the multi-replica mode (lines 42-61) *)



(** ** More on the training pass (lines 84-120) *)

Lemma train_batches_final (T : Collaborators) (config : Config) (input_shape : list Z)
    (len_train_loader writes : Z) (data : list (batch T)) :
  print_every config <> 0 ->
  forall idx acc nw lo s,
    final (train_batches T config input_shape len_train_loader writes data idx acc nw lo s) =
    after_training T config s data.
Proof.
  intros Hp. induction data as [| input rest IH]; intros idx acc nw lo s.
  - reflexivity.
  - rewrite train_batches_cons by assumption. cbn [final after_training]. apply IH.
Qed.

Lemma train_batches_flushes (T : Collaborators) (config : Config) (input_shape : list Z)
    (len_train_loader writes : Z) (data : list (batch T)) :
  print_every config <> 0 ->
  forall idx acc nw lo s,
    flushes (emitted (train_batches T config input_shape len_train_loader writes data
                        idx acc nw lo s)) =
    filter (fun i => (i + 1) mod print_every config =? 0)
           (consecutive idx (List.length data)).
Proof.
  intros Hp. induction data as [| input rest IH]; intros idx acc nw lo s.
  - reflexivity.
  - rewrite train_batches_cons by assumption. cbn [emitted List.length].
    rewrite consecutive_cons. cbn [filter].
    change (Forward (training s) (grad_mode s) input :: ?l)
      with ([Forward (training s) (grad_mode s) input] ++ l)%list.
    rewrite !flushes_app, IH. cbn [flushes flat_map flush_of app].
    destruct ((idx + 1) mod print_every config =? 0).
    + rewrite flush_events_flushes. reflexivity.
    + reflexivity.
Qed.

Lemma train_batches_forwards (T : Collaborators) (config : Config) (input_shape : list Z)
    (len_train_loader writes : Z) (data : list (batch T)) :
  print_every config <> 0 ->
  forall idx acc nw lo s,
    forwards (emitted (train_batches T config input_shape len_train_loader writes data
                         idx acc nw lo s)) =
    repeat (training s, grad_mode s) (List.length data).
Proof.
  intros Hp. induction data as [| input rest IH]; intros idx acc nw lo s.
  - reflexivity.
  - rewrite train_batches_cons by assumption. cbn [emitted List.length repeat].
    change (Forward (training s) (grad_mode s) input :: ?l)
      with ([Forward (training s) (grad_mode s) input] ++ l)%list.
    rewrite !forwards_app, IH. cbn [forwards flat_map forward_of app].
    destruct (optimizer_update_eq T config input s) as (_ & -> & ->).
    destruct ((idx + 1) mod print_every config =? 0).
    + rewrite flush_events_forwards. reflexivity.
    + reflexivity.
Qed.

Lemma flush_count_step (p n : Z) :
  0 < p -> 0 <= n ->
  (n + 1) / p = n / p + (if (n + 1) mod p =? 0 then 1 else 0).
Proof.
  intros Hp Hn.
  pose proof (Z.div_mod n p ltac:(lia)) as Hdm.
  pose proof (Z.mod_pos_bound n p Hp) as Hb.
  destruct (Z.eq_dec (n mod p) (p - 1)) as [Heq | Hne].
  - assert (Hq : (n + 1) / p = n / p + 1).
    { symmetry. apply (Z.div_unique (n + 1) p (n / p + 1) 0); lia. }
    assert (Hm : (n + 1) mod p = 0).
    { symmetry. apply (Z.mod_unique (n + 1) p (n / p + 1) 0); lia. }
    rewrite Hq, Hm. reflexivity.
  - assert (Hq : (n + 1) / p = n / p).
    { symmetry. apply (Z.div_unique (n + 1) p (n / p) (n mod p + 1)); lia. }
    assert (Hm : (n + 1) mod p = n mod p + 1).
    { symmetry. apply (Z.mod_unique (n + 1) p (n / p) (n mod p + 1)); lia. }
    rewrite Hq, Hm. destruct (n mod p + 1 =? 0) eqn:E; [apply Z.eqb_eq in E |]; lia.
Qed.

Lemma consecutive_snoc (a : Z) (n : nat) :
  consecutive a (S n) = (consecutive a n ++ [a + Z.of_nat n])%list.
Proof.
  replace (S n) with (n + 1)%nat by lia. rewrite <- consecutive_app.
  f_equal. unfold consecutive. cbn. f_equal. lia.
Qed.

Lemma flush_indices_length (config : Config) (n : nat) :
  0 < print_every config ->
  Z.of_nat (List.length (flush_indices config n)) = Z.of_nat n / print_every config.
Proof.
  intros Hp. unfold flush_indices. induction n as [| n IH].
  - cbn [consecutive seq map filter List.length Z.of_nat]. symmetry. apply Z.div_0_l. lia.
  - rewrite consecutive_snoc, filter_app, length_app, Nat2Z.inj_add, IH.
    replace (Z.of_nat (S n)) with (Z.of_nat n + 1) by lia.
    rewrite (flush_count_step (print_every config) (Z.of_nat n)) by lia.
    cbn [filter Z.add]. f_equal.
    destruct ((Z.of_nat n + 1) mod print_every config =? 0); reflexivity.
Qed.

Lemma train_loop_flushes (T : Collaborators) (config : Config) (input_shape : list Z)
    (len_train_loader writes : Z) (data : list (batch T)) (s : runtime T) :
  print_every config <> 0 ->
  data <> [] ->
  flushes (emitted (train_loop T config input_shape len_train_loader data writes s)) =
  flush_indices config (List.length data).
Proof.
  intros Hp Hdata.
  destruct (train_loop_spec T config input_shape len_train_loader writes data s Hp Hdata)
    as (nw & acc & lo & _ & _ & Hem & _).
  rewrite Hem. apply train_batches_flushes. exact Hp.
Qed.

(** X1. With a positive [print_every], a training pass over [n >= 1] batches
    flushes exactly at the batch indices [i] with [(i + 1) mod print_every =
    0], in increasing order, and returns their number, [n / print_every], as
    [new_writes]. *)
Theorem train_loop_flush_count (T : Collaborators) (config : Config) (input_shape : list Z)
    (len_train_loader writes : Z) (data : list (batch T)) (s : runtime T) :
  0 < print_every config ->
  data <> [] ->
  let r := train_loop T config input_shape len_train_loader data writes s in
  flushes (emitted r) = flush_indices config (List.length data)
  /\ exists train_loss,
       value r = Ok (Z.of_nat (List.length data) / print_every config, train_loss).
Proof.
  intros Hp Hdata r.
  assert (Hp' : print_every config <> 0) by lia.
  destruct (train_loop_spec T config input_shape len_train_loader writes data s Hp' Hdata)
    as (nw & acc & lo & Hv & _ & Hem & _ & Hnw & _).
  fold r in Hv, Hem, Hnw.
  assert (Hfl : flushes (emitted r) = flush_indices config (List.length data)).
  { rewrite Hem. apply train_batches_flushes. exact Hp'. }
  split; [exact Hfl |].
  exists acc. rewrite Hv, Hnw, Hfl, flush_indices_length by exact Hp. reflexivity.
Qed.

Lemma train_loop_flush_count_witness :
  let config := Toy.single_device 2 1 1 in
  let data := Toy.unit_batches 5 in
  let r := train_loop Toy.collaborators config Toy.shape 5 data 0 Toy.start in
  (0 < print_every config /\ data <> [])
  /\ flushes (emitted r) = [1; 3]
  /\ exists train_loss, value r = Ok (2, train_loss).
Proof.
  intros config data r.
  assert (Hp : 0 < print_every config) by reflexivity.
  assert (Hd : data <> []) by discriminate.
  split; [split; assumption |].
  exact (train_loop_flush_count Toy.collaborators config Toy.shape 5 0 data Toy.start Hp Hd).
Defined.

Lemma train_loop_final (T : Collaborators) (config : Config)
    (input_shape : list Z) (len_train_loader writes : Z) (data : list (batch T))
    (s : runtime T) :
  print_every config <> 0 ->
  final (train_loop T config input_shape len_train_loader data writes s) =
  after_training T config (in_mode true s) data.
Proof.
  intros Hp. destruct data as [| input rest]; [reflexivity |].
  destruct (train_loop_spec T config input_shape len_train_loader writes (input :: rest) s
              Hp ltac:(discriminate)) as (nw & acc & lo & _ & _ & _ & Hfin & _).
  rewrite Hfin. apply train_batches_final. exact Hp.
Qed.

(** X2. When [print_every] is not zero, a training pass switches the model to
    training mode and applies exactly one optimizer step per batch, in the
    order of the loader ([xm.optimizer_step] on several replicas,
    [optimizer.step] otherwise); nothing else changes the runtime. This holds
    for an empty loader too, where the pass raises after the mode switch. *)
Theorem train_loop_one_step_per_batch (T : Collaborators) (config : Config)
    (input_shape : list Z) (len_train_loader writes : Z) (data : list (batch T))
    (s : runtime T) :
  print_every config <> 0 ->
  final (train_loop T config input_shape len_train_loader data writes s) =
  after_training T config (in_mode true s) data.
Proof.
  apply train_loop_final.
Qed.

Lemma train_loop_one_step_per_batch_witness :
  let config := Toy.single_device 2 1 1 in
  print_every config <> 0
  /\ model_params (final (train_loop Toy.collaborators config Toy.shape 3
                            (Toy.unit_batches 3) 0 Toy.start)) = 3%nat.
Proof.
  intros config.
  assert (Hp : print_every config <> 0) by discriminate.
  split; [exact Hp |].
  rewrite (train_loop_one_step_per_batch Toy.collaborators config Toy.shape 3 0
             (Toy.unit_batches 3) Toy.start Hp).
  reflexivity.
Defined.

(** ** The two metrics on full batches *)

Lemma examples_in_full (T : Collaborators) (b : Z) (data : list (batch T)) :
  Forall (fun input => Z.of_nat (List.length input) = b) data ->
  examples_in data = Z.of_nat (List.length data) * b.
Proof.
  unfold examples_in. induction 1 as [| input rest Hb _ IH].
  - reflexivity.
  - rewrite concat_cons, length_app, Nat2Z.inj_add, IH, Hb. cbn [List.length]. lia.
Qed.

Lemma flush_events_logged (T : Collaborators) (config : Config) (input_shape : list Z)
    (len_train_loader writes idx : Z) (acc : R) (nw : Z) :
  logged "train/bpd"
    (flush_events T config input_shape len_train_loader writes idx acc nw) =
  if use_tpu config then [] else [fdiv acc (train_deno config input_shape)].
Proof.
  unfold flush_events. destruct (use_tpu config); reflexivity.
Qed.

(** A window that ends on its first flush logs the loss accumulated over it. *)
Lemma train_batches_window (T : Collaborators) (config : Config) (input_shape : list Z)
    (len_train_loader writes : Z) (data : list (batch T)) :
  0 < print_every config ->
  forall idx acc nw lo s,
    data <> [] ->
    0 <= idx ->
    idx mod print_every config + Z.of_nat (List.length data) = print_every config ->
    logged "train/bpd"
      (emitted (train_batches T config input_shape len_train_loader writes data
                  idx acc nw lo s)) =
    if use_tpu config then []
    else [fdiv (fold_left Rplus (train_losses T config s data) acc)
               (train_deno config input_shape)].
Proof.
  intros Hp. induction data as [| input rest IH]; intros idx acc nw lo s Hne Hidx Hlen;
    [congruence |].
  rewrite train_batches_cons by lia. cbn [emitted train_losses fold_left].
  change (Forward (training s) (grad_mode s) input :: ?l)
    with ([Forward (training s) (grad_mode s) input] ++ l)%list.
  rewrite !logged_app. cbn [logged flat_map value_of app].
  pose proof (Z.mod_pos_bound idx (print_every config) Hp) as Hb.
  destruct rest as [| input' rest'].
  - cbn [List.length] in Hlen.
    assert (Hm : (idx + 1) mod print_every config = 0).
    { symmetry.
      apply (Z.mod_unique (idx + 1) (print_every config) (idx / print_every config + 1) 0);
        [lia |].
      pose proof (Z.div_mod idx (print_every config) ltac:(lia)). lia. }
    rewrite Hm. cbn [Z.eqb train_batches ret emitted train_losses fold_left].
    rewrite flush_events_logged. destruct (use_tpu config); reflexivity.
  - cbn [List.length] in Hlen.
    assert (Hm : (idx + 1) mod print_every config = idx mod print_every config + 1).
    { symmetry.
      apply (Z.mod_unique (idx + 1) (print_every config) (idx / print_every config)
               (idx mod print_every config + 1)); [lia |].
      pose proof (Z.div_mod idx (print_every config) ltac:(lia)). lia. }
    assert (Hnf : ((idx + 1) mod print_every config =? 0) = false)
      by (apply Z.eqb_neq; lia).
    rewrite Hnf. cbn [app]. apply IH; [discriminate | lia |].
    rewrite Hm. cbn [List.length]. lia.
Qed.





(** ** More on the epoch loop (lines 154-174) *)

Lemma epochs_cons_raise (T : Collaborators) (config : Config) (model_name : string)
    (input_shape : list Z) (ordinal : Z) (train_loader test_loader : DataLoader T)
    (epoch : Z) (rest : list Z) (writes : Z) (s : runtime T) (nw : Z) (acc : R) (e : exn) :
  let r1 := train_loop T config input_shape (len T (train_loader epoch))
              (train_loader epoch) writes s in
  let w1 := if use_tpu config then writes else writes + nw in
  let r2 := test_loop T config model_name input_shape ordinal epoch (test_loader epoch) w1
              (final (scheduler_update T epoch (final r1))) in
  value r1 = Ok (nw, acc) ->
  value r2 = Raise e ->
  epochs T config model_name input_shape ordinal train_loader test_loader (epoch :: rest)
    writes s =
  {| emitted :=
       ([Print (EpochLine epoch)] ++ emitted r1 ++
        [Print (if use_tpu config then FinishedTpuLine epoch else FinishedLine epoch acc)] ++
        emitted r2)%list;
     final := final r2;
     value := Raise e |}.
Proof.
  intros r1 w1 r2 Hv1 Hv2. subst r1 w1 r2.
  cbn [epochs]. unfold per_device_loader.
  unfold scheduler_update in Hv2 |- *. cbn [value final emitted] in Hv2.
  unfold bind, emit, ret. cbn [value final emitted].
  destruct (use_tpu config); cbn [value final emitted]; rewrite Hv1;
    cbn [value final emitted]; rewrite Hv2; cbn [value final emitted app];
    rewrite ?app_nil_r, <- ?app_assoc; reflexivity.
Qed.

Lemma epochs_final (T : Collaborators) (config : Config) (model_name : string)
    (input_shape : list Z) (ordinal : Z) (train_loader test_loader : DataLoader T)
    (todo : list Z) :
  runs_clean config train_loader test_loader todo ->
  forall writes s,
    let r := epochs T config model_name input_shape ordinal train_loader test_loader
               todo writes s in
    final r = fold_left (fun s' epoch => after_epoch T config epoch (train_loader epoch) s')
                        todo s
    /\ forwards (emitted r) =
       flat_map (epoch_forwards train_loader test_loader (grad_mode s)) todo.
Proof.
  induction todo as [| epoch rest IH]; intros (Hp & Hk & Hload) writes s r.
  - split; reflexivity.
  - destruct (Hload epoch (or_introl eq_refl)) as [Htrain Htest].
    destruct (train_loop_spec T config input_shape (len T (train_loader epoch)) writes
                (train_loader epoch) s Hp Htrain)
      as (nw & acc & lo & Hv1 & _ & Hem1 & Hfin1 & _ & _ & _ & _ & Hgm1 & _).
    pose proof (train_loop_final T config input_shape
                  (len T (train_loader epoch)) writes (train_loader epoch) s Hp) as Hstep.
    set (r1 := train_loop T config input_shape (len T (train_loader epoch))
                 (train_loader epoch) writes s) in *.
    set (w1 := if use_tpu config then writes else writes + nw).
    set (s2 := final (scheduler_update T epoch (final r1))).
    destruct (test_loop_spec T config model_name input_shape ordinal epoch w1
                (test_loader epoch) s2 Hk Htest)
      as (Hv2 & Hfin2 & _ & _ & _ & _ & Hfw2).
    assert (Hrest : runs_clean config train_loader test_loader rest).
    { repeat split; try assumption; apply Hload; now right. }
    subst r.
    rewrite (epochs_cons T config model_name input_shape ordinal train_loader test_loader
               epoch rest writes s nw acc _ Hv1 Hv2).
    cbn [final emitted]. fold r1 w1 s2.
    destruct (IH Hrest (w1 + 1)
                (final (test_loop T config model_name input_shape ordinal epoch
                          (test_loader epoch) w1 s2))) as [IHfin IHfw].
    assert (Hs2 : grad_mode s2 = grad_mode s) by exact Hgm1.
    split.
    + rewrite IHfin, Hfin2. cbn [fold_left]. unfold after_epoch. subst s2.
      rewrite Hstep. reflexivity.
    + rewrite !forwards_app, IHfw, Hfw2, Hfin2, Hem1.
      rewrite train_batches_forwards by exact Hp.
      cbn [in_mode training grad_mode flat_map]. rewrite Hs2.
      assert (Hpr : forall l, @forwards T [Print l] = []) by reflexivity.
      rewrite !Hpr. cbn [app]. unfold epoch_forwards at 2.
      rewrite map_const, <- app_assoc. reflexivity.
Qed.

(** X5. On inputs that do not raise, the forward passes of the loop are, epoch
    after epoch, one per training batch with the model in training mode
    followed by one per test batch with the model in evaluation mode: training
    and evaluation passes alternate strictly, and [model.train()] restores the
    training mode that the evaluation pass of the previous epoch switched
    off. *)
Theorem passes_alternate (T : Collaborators) (config : Config) (model_name : string)
    (input_shape : list Z) (ordinal : Z) (train_loader test_loader : DataLoader T)
    (todo : list Z) (writes : Z) (s : runtime T) :
  runs_clean config train_loader test_loader todo ->
  forwards (emitted (epochs T config model_name input_shape ordinal train_loader
                       test_loader todo writes s)) =
  flat_map (fun epoch =>
              repeat (true, grad_mode s) (List.length (train_loader epoch)) ++
              repeat (false, grad_mode s) (List.length (test_loader epoch)))%list
           todo.
Proof.
  intros Hclean.
  exact (proj2 (epochs_final T config model_name input_shape ordinal train_loader
                  test_loader todo Hclean writes s)).
Qed.

Lemma passes_alternate_witness :
  let config := Toy.single_device 2 1 2 in
  let train_loader := fun _ : Z => Toy.unit_batches 2 in
  let test_loader := fun _ : Z => Toy.unit_batches 1 in
  runs_clean config train_loader test_loader (range 2)
  /\ forwards (emitted (epochs Toy.collaborators config "m" Toy.shape 0 train_loader
                          test_loader (range 2) 0 Toy.start)) =
     [(true, true); (true, true); (false, true); (true, true); (true, true); (false, true)].
Proof.
  intros config train_loader test_loader.
  assert (Hclean : runs_clean config train_loader test_loader (range 2))
    by (apply (toy_runs_clean false 2 1 2 1 0); lia).
  split; [exact Hclean |].
  exact (passes_alternate Toy.collaborators config "m" Toy.shape 0 train_loader test_loader
           (range 2) 0 Toy.start Hclean).
Defined.

(** X6. On inputs that do not raise, the runtime a run ends in is obtained by
    folding the epochs over the initial one: in each epoch one optimizer step
    per training batch, then one scheduler step with the epoch index, the
    model being left in evaluation mode. Nothing else (evaluation, sampling,
    saving) changes parameters or optimizer state. *)
Theorem run_final_runtime (T : Collaborators) (config : Config) (model_name : string)
    (input_shape : list Z) (ordinal : Z) (train_loader test_loader : DataLoader T)
    (s : runtime T) :
  runs_clean config train_loader test_loader (range (max_epochs config)) ->
  let r := train T config model_name input_shape ordinal train_loader test_loader s in
  final r =
    fold_left (fun s' epoch => after_epoch T config epoch (train_loader epoch) s')
              (range (max_epochs config)) s
  /\ (0 < max_epochs config -> training (final r) = false).
Proof.
  intros Hclean r.
  destruct (epochs_final T config model_name input_shape ordinal train_loader test_loader
              _ Hclean 0 s) as [Hfin _].
  fold (train T config model_name input_shape ordinal train_loader test_loader s) in Hfin.
  fold r in Hfin. split; [exact Hfin |].
  intros Hpos. rewrite Hfin. unfold range.
  replace (Z.to_nat (max_epochs config)) with (S (Z.to_nat (max_epochs config - 1))) by lia.
  rewrite seq_S, map_app, fold_left_app. reflexivity.
Qed.

Lemma run_final_runtime_witness :
  let config := Toy.single_device 2 1 2 in
  let train_loader := fun _ : Z => Toy.unit_batches 3 in
  let test_loader := fun _ : Z => Toy.unit_batches 1 in
  let r := train Toy.collaborators config "m" Toy.shape 0 train_loader test_loader
             Toy.start in
  runs_clean config train_loader test_loader (range (max_epochs config))
  /\ final r = Build_runtime Toy.collaborators 6%nat 2 false true
  /\ (0 < max_epochs config -> training (final r) = false).
Proof.
  intros config train_loader test_loader r.
  assert (Hclean : runs_clean config train_loader test_loader (range (max_epochs config)))
    by (apply (toy_runs_clean false 2 1 2 2 0); lia).
  split; [exact Hclean |].
  exact (run_final_runtime Toy.collaborators config "m" Toy.shape 0 train_loader
           test_loader Toy.start Hclean).
Defined.

(** ** How a run aborts *)

(** X7. An epoch whose training loader yields no batch aborts the run with an
    [UnboundLocalError] on [loss] (the [del] at line 119), whatever the
    configuration: only the epoch line was printed, the model was switched to
    training mode, and nothing was logged, saved or updated. *)
Theorem empty_train_loader_aborts (T : Collaborators) (config : Config)
    (model_name : string) (input_shape : list Z) (ordinal : Z)
    (train_loader test_loader : DataLoader T) (epoch : Z) (rest : list Z) (writes : Z)
    (s : runtime T) :
  train_loader epoch = [] ->
  epochs T config model_name input_shape ordinal train_loader test_loader (epoch :: rest)
    writes s =
  {| emitted := [Print (EpochLine epoch)];
     final := in_mode true s;
     value := Raise (UnboundLocalError "loss") |}.
Proof.
  intros Hdata. cbn [epochs]. unfold per_device_loader. rewrite Hdata.
  destruct (use_tpu config); reflexivity.
Qed.

Lemma empty_train_loader_aborts_witness :
  let train_loader := fun _ : Z => @nil (batch Toy.collaborators) in
  train_loader 0 = []
  /\ value (epochs Toy.collaborators (Toy.single_device 2 1 1) "m" Toy.shape 0 train_loader
              (fun _ => Toy.unit_batches 2) [0] 0 Toy.start) =
     Raise (UnboundLocalError "loss").
Proof.
  intros train_loader. split; [reflexivity |].
  rewrite (empty_train_loader_aborts Toy.collaborators (Toy.single_device 2 1 1) "m"
             Toy.shape 0 train_loader (fun _ => Toy.unit_batches 2) 0 [] 0 Toy.start
             eq_refl).
  reflexivity.
Defined.

(** X8. With [print_every = 0] the run aborts with a [ZeroDivisionError] at
    the first training batch of its first epoch (line 105), after the forward
    pass and the optimizer step of that batch: the parameters were updated
    once, and nothing was logged or saved. *)
Theorem zero_print_every_aborts (T : Collaborators) (config : Config) (model_name : string)
    (input_shape : list Z) (ordinal : Z) (train_loader test_loader : DataLoader T)
    (epoch : Z) (rest : list Z) (writes : Z) (input : batch T) (more : list (batch T))
    (s : runtime T) :
  print_every config = 0 ->
  train_loader epoch = input :: more ->
  epochs T config model_name input_shape ordinal train_loader test_loader (epoch :: rest)
    writes s =
  {| emitted := [Print (EpochLine epoch); Forward true (grad_mode s) input];
     final := final (optimizer_update T config input (in_mode true s));
     value := Raise ZeroDivisionError |}.
Proof.
  intros Hp Hdata. cbn [epochs]. unfold per_device_loader. rewrite Hdata.
  unfold train_loop. cbn [train_batches]. unfold py_mod. rewrite Hp. cbn [Z.eqb].
  destruct (use_tpu config); reflexivity.
Qed.

Lemma zero_print_every_aborts_witness :
  let config := Toy.single_device 0 1 1 in
  let train_loader := fun _ : Z => Toy.unit_batches 2 in
  let r := epochs Toy.collaborators config "m" Toy.shape 0 train_loader
             (fun _ => Toy.unit_batches 2) [0] 0 Toy.start in
  (print_every config = 0 /\ train_loader 0 = [1%nat] :: Toy.unit_batches 1)
  /\ value r = Raise ZeroDivisionError
  /\ model_params (final r) = 1%nat.
Proof.
  intros config train_loader r. split; [split; reflexivity |].
  subst r.
  rewrite (zero_print_every_aborts Toy.collaborators config "m" Toy.shape 0 train_loader
             (fun _ => Toy.unit_batches 2) 0 [] 0 [1%nat] (Toy.unit_batches 1) Toy.start
             eq_refl eq_refl).
  split; reflexivity.
Defined.

(** X9. An epoch whose test loader yields no batch aborts the run with an
    [UnboundLocalError] on [batch_idx] (line 134), but only after its whole
    training pass and the scheduler step: the runtime is the one a complete
    epoch leaves, while no test value was logged and no file written. *)
Theorem empty_test_loader_aborts (T : Collaborators) (config : Config)
    (model_name : string) (input_shape : list Z) (ordinal : Z)
    (train_loader test_loader : DataLoader T) (epoch : Z) (rest : list Z) (writes : Z)
    (s : runtime T) :
  print_every config <> 0 ->
  train_loader epoch <> [] ->
  test_loader epoch = [] ->
  let r := epochs T config model_name input_shape ordinal train_loader test_loader
             (epoch :: rest) writes s in
  value r = Raise (UnboundLocalError "batch_idx")
  /\ final r = after_epoch T config epoch (train_loader epoch) s
  /\ logged "test/bpd" (emitted r) = []
  /\ artifacts (emitted r) = [].
Proof.
  intros Hp Htrain Htest r.
  destruct (train_loop_spec T config input_shape (len T (train_loader epoch)) writes
              (train_loader epoch) s Hp Htrain)
    as (nw & acc & lo & Hv1 & _ & Hem1 & _ & _ & Hsc1 & Har1 & _).
  pose proof (train_loop_final T config input_shape
                (len T (train_loader epoch)) writes (train_loader epoch) s Hp) as Hstep.
  set (r1 := train_loop T config input_shape (len T (train_loader epoch))
               (train_loader epoch) writes s) in *.
  set (w1 := if use_tpu config then writes else writes + nw).
  set (s2 := final (scheduler_update T epoch (final r1))).
  destruct (test_loop_empty_loader T config model_name input_shape ordinal epoch w1 s2)
    as [Hv2 Hem2].
  cbv zeta in Hv2, Hem2.
  assert (Hfin2 : final (test_loop T config model_name input_shape ordinal epoch
                           (test_loader epoch) w1 s2) = in_mode false s2)
    by apply test_loop_final.
  rewrite <- Htest in Hv2, Hem2.
  subst r.
  rewrite (epochs_cons_raise T config model_name input_shape ordinal train_loader
             test_loader epoch rest writes s nw acc _ Hv1 Hv2).
  cbn [value final emitted]. fold r1 w1 s2. rewrite Hem2, Hfin2.
  split; [reflexivity |]. split; [| split].
  - unfold after_epoch. subst s2. rewrite Hstep. reflexivity.
  - rewrite !logged_app.
    assert (Hno : logged "test/bpd" (emitted r1) = []).
    { assert (Hgen : forall tr : list (event T),
                 Forall (fun ts => fst ts = "train/bpd") (scalars tr) ->
                 logged "test/bpd" tr = []).
      { induction tr as [| ev tr IH]; [reflexivity |].
        destruct ev as [? ? ? | tag v w | ? ? | ? ? ? ? | ?]; cbn; intros H;
          try (now apply IH).
        inversion H as [| ? ? Htag Hrest]; subst. cbn in Htag. subst tag.
        cbn. now apply IH. }
      apply Hgen. rewrite Hsc1. destruct (use_tpu config); [constructor |].
      apply Forall_map. apply Forall_forall. intros; reflexivity. }
    rewrite Hno. destruct (use_tpu config); reflexivity.
  - rewrite !artifacts_app, Har1. destruct (use_tpu config); reflexivity.
Qed.

Lemma empty_test_loader_aborts_witness :
  let config := Toy.single_device 2 1 1 in
  let train_loader := fun _ : Z => Toy.unit_batches 2 in
  let test_loader := fun _ : Z => @nil (batch Toy.collaborators) in
  let r := epochs Toy.collaborators config "m" Toy.shape 0 train_loader test_loader
             [0] 0 Toy.start in
  (print_every config <> 0 /\ train_loader 0 <> [] /\ test_loader 0 = [])
  /\ value r = Raise (UnboundLocalError "batch_idx")
  /\ final r = after_epoch Toy.collaborators config 0 (train_loader 0) Toy.start
  /\ logged "test/bpd" (emitted r) = []
  /\ artifacts (emitted r) = [].
Proof.
  intros config train_loader test_loader r.
  assert (Hp : print_every config <> 0) by discriminate.
  assert (Htr : train_loader 0 <> []) by discriminate.
  split; [repeat split; assumption |].
  exact (empty_test_loader_aborts Toy.collaborators config "m" Toy.shape 0 train_loader
           test_loader 0 [] 0 Toy.start Hp Htr eq_refl).
Defined.

(** X10. With [save_interval = 0] the first epoch aborts the run with a
    [ZeroDivisionError] at line 143, after the evaluation pass has logged its
    ["test/bpd"] value: the metric of that epoch is in the log, and no
    checkpoint or image is ever written. *)
Theorem zero_save_interval_aborts (T : Collaborators) (config : Config)
    (model_name : string) (input_shape : list Z) (ordinal : Z)
    (train_loader test_loader : DataLoader T) (epoch : Z) (rest : list Z) (writes : Z)
    (s : runtime T) :
  print_every config <> 0 ->
  save_interval config = 0 ->
  train_loader epoch <> [] ->
  test_loader epoch <> [] ->
  let r := epochs T config model_name input_shape ordinal train_loader test_loader
             (epoch :: rest) writes s in
  value r = Raise ZeroDivisionError
  /\ List.length (logged "test/bpd" (emitted r)) = 1%nat
  /\ artifacts (emitted r) = [].
Proof.
  intros Hp Hk Htrain Htest r.
  destruct (train_loop_spec T config input_shape (len T (train_loader epoch)) writes
              (train_loader epoch) s Hp Htrain)
    as (nw & acc & lo & Hv1 & _ & _ & _ & _ & Hsc1 & Har1 & _).
  set (r1 := train_loop T config input_shape (len T (train_loader epoch))
               (train_loader epoch) writes s) in *.
  set (w1 := if use_tpu config then writes else writes + nw).
  set (s2 := final (scheduler_update T epoch (final r1))).
  set (r2 := test_loop T config model_name input_shape ordinal epoch (test_loader epoch)
               w1 s2).
  assert (Hr2 : value r2 = Raise ZeroDivisionError /\ artifacts (emitted r2) = []).
  { subst r2. destruct (test_loader epoch) as [| input more]; [congruence |].
    rewrite test_loop_eq. cbn [value emitted]. unfold checkpoint_events.
    rewrite Hk. cbn [Z.eqb]. split; [reflexivity |].
    rewrite !artifacts_app.
    destruct (forward_events_silent T false (grad_mode s2) (input :: more))
      as (_ & -> & _). reflexivity. }
  destruct Hr2 as [Hv2 Har2].
  pose proof (test_loop_logged T config model_name input_shape ordinal epoch w1
                (test_loader epoch) s2 Htest) as Hlog2.
  fold r2 in Hlog2.
  subst r.
  rewrite (epochs_cons_raise T config model_name input_shape ordinal train_loader
             test_loader epoch rest writes s nw acc _ Hv1 Hv2).
  cbn [value emitted]. fold r1 w1 s2 r2.
  split; [reflexivity |]. split.
  - rewrite !logged_app, Hlog2.
    assert (Hno : logged "test/bpd" (emitted r1) = []).
    { assert (Hgen : forall tr : list (event T),
                 Forall (fun ts => fst ts = "train/bpd") (scalars tr) ->
                 logged "test/bpd" tr = []).
      { induction tr as [| ev tr IH]; [reflexivity |].
        destruct ev as [? ? ? | tag v w | ? ? | ? ? ? ? | ?]; cbn; intros H;
          try (now apply IH).
        inversion H as [| ? ? Htag Hrest]; subst. cbn in Htag. subst tag.
        cbn. now apply IH. }
      apply Hgen. rewrite Hsc1. destruct (use_tpu config); [constructor |].
      apply Forall_map. apply Forall_forall. intros; reflexivity. }
    rewrite Hno. destruct (use_tpu config); reflexivity.
  - rewrite !artifacts_app, Har1, Har2. destruct (use_tpu config); reflexivity.
Qed.

Lemma zero_save_interval_aborts_witness :
  let config := Toy.single_device 2 0 3 in
  let train_loader := fun _ : Z => Toy.unit_batches 2 in
  let test_loader := fun _ : Z => Toy.unit_batches 2 in
  let r := epochs Toy.collaborators config "m" Toy.shape 0 train_loader test_loader
             (range 3) 0 Toy.start in
  (print_every config <> 0 /\ save_interval config = 0
   /\ train_loader 0 <> [] /\ test_loader 0 <> [])
  /\ value r = Raise ZeroDivisionError
  /\ List.length (logged "test/bpd" (emitted r)) = 1%nat
  /\ artifacts (emitted r) = [].
Proof.
  intros config train_loader test_loader r.
  assert (Hp : print_every config <> 0) by discriminate.
  assert (Htr : train_loader 0 <> []) by discriminate.
  assert (Hte : test_loader 0 <> []) by discriminate.
  split; [repeat split; assumption |].
  exact (zero_save_interval_aborts Toy.collaborators config "m" Toy.shape 0 train_loader
           test_loader 0 [1; 2] 0 Toy.start Hp eq_refl Htr Hte).
Defined.

(** ** File names (lines 144 and 150) *)

Lemma format_int_parse (z : Z) : parse_int (format_int z) = Some z.
Proof.
  unfold parse_int, format_int.
  rewrite NilZero.isi.
  - cbn [option_map]. now rewrite DecimalZ.of_to.
  - destruct z; cbn; try discriminate.
    intros [= H]. now apply DecimalPos.Unsigned.to_uint_nonnil in H.
  - destruct z; cbn; try discriminate.
    intros [= H]. now apply DecimalPos.Unsigned.to_uint_nonnil in H.
Qed.

Lemma append_length (a b : string) :
  String.length (a ++ b) = (String.length a + String.length b)%nat.
Proof.
  induction a as [| c a IH]; cbn; [reflexivity | now rewrite IH].
Qed.

Lemma append_cancel_l (p a b : string) : p ++ a = p ++ b -> a = b.
Proof.
  induction p as [| c p IH]; cbn; [trivial |]. intros [= H]. now apply IH.
Qed.

Lemma append_cancel_r (t a b : string) : a ++ t = b ++ t -> a = b.
Proof.
  revert b. induction a as [| c a IH]; intros [| d b] H.
  - reflexivity.
  - apply (f_equal String.length) in H. cbn in H. rewrite append_length in H. lia.
  - apply (f_equal String.length) in H. cbn in H. rewrite append_length in H. lia.
  - cbn in H. injection H as -> H. f_equal. now apply IH.
Qed.

(** X11. The epoch can be read back from the decimal suffix of a file name,
    so for a given model name the checkpoints of two different epochs never
    share a path, nor do their images, and a checkpoint path is never an image
    path: no epoch overwrites the files of another. *)
Theorem paths_identify_epoch (model_name : string) (e1 e2 : Z) :
  parse_int (format_int e1) = Some e1
  /\ (checkpoint_path model_name e1 = checkpoint_path model_name e2 -> e1 = e2)
  /\ (sample_path model_name e1 = sample_path model_name e2 -> e1 = e2)
  /\ checkpoint_path model_name e1 <> sample_path model_name e2.
Proof.
  assert (Hinj : forall a b, format_int a = format_int b -> a = b).
  { intros a b H. apply (f_equal parse_int) in H.
    rewrite !format_int_parse in H. now injection H. }
  split; [apply format_int_parse |]. split; [| split].
  - unfold checkpoint_path. intros H.
    apply (append_cancel_l "models/"), append_cancel_l, (append_cancel_l "_"),
      append_cancel_r in H.
    now apply Hinj.
  - unfold sample_path. intros H.
    apply (append_cancel_l "images/"), append_cancel_l, (append_cancel_l "_"),
      append_cancel_r in H.
    now apply Hinj.
  - unfold checkpoint_path, sample_path. cbn. discriminate.
Qed.

(** ** What a checkpoint holds (lines 143-151) *)

(** X12. On inputs that do not raise, in an epoch with
    [(epoch + 1) mod save_interval = 0] the checkpoint saved under the path of
    that epoch holds the parameters as the training pass of the same epoch
    left them, and the image saved is the rescaled sample drawn from these
    very parameters. *)
Theorem checkpoint_holds_trained_parameters (T : Collaborators) (config : Config)
    (model_name : string) (input_shape : list Z) (ordinal : Z)
    (train_loader test_loader : DataLoader T) (epoch : Z) (rest : list Z) (writes : Z)
    (s : runtime T) :
  runs_clean config train_loader test_loader (epoch :: rest) ->
  (epoch + 1) mod save_interval config = 0 ->
  let r := epochs T config model_name input_shape ordinal train_loader test_loader
             (epoch :: rest) writes s in
  let p := model_params (after_training T config (in_mode true s) (train_loader epoch)) in
  In (TorchSave p (checkpoint_path model_name epoch)) (emitted r)
  /\ In (SaveImage (rescaling_inv T (sample T p input_shape))
           (sample_path model_name epoch) 5 0) (emitted r).
Proof.
  intros (Hp & Hk & Hload) Hmod r p.
  destruct (Hload epoch (or_introl eq_refl)) as [Htrain Htest].
  destruct (train_loop_spec T config input_shape (len T (train_loader epoch)) writes
              (train_loader epoch) s Hp Htrain) as (nw & acc & lo & Hv1 & _).
  pose proof (train_loop_final T config input_shape
                (len T (train_loader epoch)) writes (train_loader epoch) s Hp) as Hstep.
  set (r1 := train_loop T config input_shape (len T (train_loader epoch))
               (train_loader epoch) writes s) in *.
  set (w1 := if use_tpu config then writes else writes + nw).
  set (s2 := final (scheduler_update T epoch (final r1))).
  destruct (test_loop_spec T config model_name input_shape ordinal epoch w1
              (test_loader epoch) s2 Hk Htest) as (Hv2 & _).
  assert (Hparams : model_params s2 = p).
  { subst s2 p. cbn [scheduler_update final model_params]. now rewrite Hstep. }
  assert (Hin : forall ev,
             In ev (checkpoint_events T config model_name input_shape epoch
                      (model_params s2)) ->
             In ev (emitted r)).
  { intros ev Hev. subst r.
    rewrite (epochs_cons T config model_name input_shape ordinal train_loader test_loader
               epoch rest writes s nw acc _ Hv1 Hv2).
    cbn [emitted]. fold r1 w1 s2.
    apply in_or_app. right. apply in_or_app. right. apply in_or_app. right.
    apply in_or_app. left.
    destruct (test_loader epoch) as [| input more]; [congruence |].
    rewrite test_loop_eq. cbn [emitted].
    apply in_or_app. right. apply in_or_app. right. exact Hev. }
  rewrite Hparams in Hin. unfold checkpoint_events in Hin.
  apply Z.eqb_neq in Hk. rewrite Hk, Hmod in Hin. cbn [Z.eqb] in Hin.
  split; apply Hin; cbn; auto.
Qed.

Lemma checkpoint_holds_trained_parameters_witness :
  let config := Toy.single_device 2 1 1 in
  let train_loader := fun _ : Z => Toy.unit_batches 4 in
  let test_loader := fun _ : Z => Toy.unit_batches 2 in
  let r := epochs Toy.collaborators config "m" Toy.shape 0 train_loader test_loader
             (range 1) 0 Toy.start in
  (runs_clean config train_loader test_loader (range 1)
   /\ (0 + 1) mod save_interval config = 0)
  /\ In (@TorchSave Toy.collaborators 4%nat "models/m_0.pth") (emitted r)
  /\ In (@SaveImage Toy.collaborators 4%nat "images/m_0.png" 5 0) (emitted r).
Proof.
  intros config train_loader test_loader r.
  assert (Hclean : runs_clean config train_loader test_loader (range 1))
    by (apply (toy_runs_clean false 2 1 1 3 1); lia).
  split; [split; [exact Hclean | reflexivity] |].
  exact (checkpoint_holds_trained_parameters Toy.collaborators config "m" Toy.shape 0
           train_loader test_loader 0 [] 0 Toy.start Hclean eq_refl).
Defined.

(** ** Replicas (lines 177-187) *)

(** X13. Nothing the loop writes depends on the rank of the replica: two
    replicas of a multi-replica run, whatever their ordinals, shards and
    initial runtimes, write the same checkpoint and image files in the same
    order and log their test values under the same tag at the same write
    indices, as long as neither raises. *)
Theorem replicas_write_the_same_files (T : Collaborators) (config : Config)
    (model_name : string) (input_shape : list Z) (ordinal1 ordinal2 : Z)
    (train1 test1 train2 test2 : DataLoader T) (s1 s2 : runtime T) :
  use_tpu config = true ->
  runs_clean config train1 test1 (range (max_epochs config)) ->
  runs_clean config train2 test2 (range (max_epochs config)) ->
  let r1 := train T config model_name input_shape ordinal1 train1 test1 s1 in
  let r2 := train T config model_name input_shape ordinal2 train2 test2 s2 in
  artifacts (emitted r1) = artifacts (emitted r2)
  /\ scalars (emitted r1) = scalars (emitted r2).
Proof.
  intros Htpu H1 H2 r1 r2.
  destruct (epochs_spec T config model_name input_shape ordinal1 train1 test1 _ H1 0 s1)
    as (fw1 & _ & _ & _ & Hsc1 & Har1).
  destruct (epochs_spec T config model_name input_shape ordinal2 train2 test2 _ H2 0 s2)
    as (fw2 & _ & _ & _ & Hsc2 & Har2).
  unfold r1, r2, train. rewrite Har1, Har2, (Hsc1 Htpu), (Hsc2 Htpu). split; reflexivity.
Qed.

Lemma replicas_write_the_same_files_witness :
  let config := Toy.multi_replica 1 2 2 in
  let train1 := fun _ : Z => Toy.unit_batches 2 in
  let train2 := fun _ : Z => Toy.unit_batches 3 in
  let test := fun _ : Z => Toy.unit_batches 1 in
  let r1 := train Toy.collaborators config "m" Toy.shape 0 train1 test Toy.start in
  let r2 := train Toy.collaborators config "m" Toy.shape 1 train2 test Toy.start in
  (use_tpu config = true
   /\ runs_clean config train1 test (range (max_epochs config))
   /\ runs_clean config train2 test (range (max_epochs config)))
  /\ artifacts (emitted r1) = artifacts (emitted r2)
  /\ scalars (emitted r1) = scalars (emitted r2).
Proof.
  intros config train1 train2 test r1 r2.
  assert (H1 : runs_clean config train1 test (range (max_epochs config)))
    by (apply (toy_runs_clean true 1 2 2 1 0); lia).
  assert (H2 : runs_clean config train2 test (range (max_epochs config)))
    by (apply (toy_runs_clean true 1 2 2 2 0); lia).
  split; [split; [reflexivity | split; assumption] |].
  exact (replicas_write_the_same_files Toy.collaborators config "m" Toy.shape 0 1
           train1 test train2 test Toy.start Toy.start eq_refl H1 H2).
Defined.

(** ** The shape of the log *)

Lemma map_fst_pair (tag : string) (l : list Z) :
  map fst (map (pair tag) l) = repeat tag (List.length l).
Proof.
  rewrite map_map. cbn. apply map_const.
Qed.

(** X14. On inputs that do not raise and with a positive [print_every], the
    scalars of a run are, epoch after epoch, [n / print_every] values tagged
    ["train/bpd"] for the [n] training batches of the epoch (none on several
    replicas) followed by exactly one value tagged ["test/bpd"]. *)
Theorem log_tags (T : Collaborators) (config : Config) (model_name : string)
    (input_shape : list Z) (ordinal : Z) (train_loader test_loader : DataLoader T)
    (todo : list Z) :
  0 < print_every config ->
  runs_clean config train_loader test_loader todo ->
  forall (writes : Z) (s : runtime T),
    map fst (scalars (emitted (epochs T config model_name input_shape ordinal train_loader
                                 test_loader todo writes s))) =
    flat_map (fun epoch =>
                (if use_tpu config then []
                 else repeat "train/bpd"
                        (Z.to_nat (len T (train_loader epoch) / print_every config))) ++
                ["test/bpd"])%list
             todo.
Proof.
  intros Hpos. induction todo as [| epoch rest IH]; intros (Hp & Hk & Hload) writes s.
  - reflexivity.
  - destruct (Hload epoch (or_introl eq_refl)) as [Htrain Htest].
    destruct (train_loop_spec T config input_shape (len T (train_loader epoch)) writes
                (train_loader epoch) s Hp Htrain)
      as (nw & acc & lo & Hv1 & _ & _ & _ & _ & Hsc1 & _).
    pose proof (train_loop_flushes T config input_shape (len T (train_loader epoch))
                  writes (train_loader epoch) s Hp Htrain) as Hfl.
    set (r1 := train_loop T config input_shape (len T (train_loader epoch))
                 (train_loader epoch) writes s) in *.
    set (w1 := if use_tpu config then writes else writes + nw).
    set (s2 := final (scheduler_update T epoch (final r1))).
    destruct (test_loop_spec T config model_name input_shape ordinal epoch w1
                (test_loader epoch) s2 Hk Htest) as (Hv2 & _ & Hsc2 & _).
    assert (Hrest : runs_clean config train_loader test_loader rest).
    { repeat split; try assumption; apply Hload; now right. }
    rewrite (epochs_cons T config model_name input_shape ordinal train_loader test_loader
               epoch rest writes s nw acc _ Hv1 Hv2).
    cbn [emitted flat_map]. fold r1 w1 s2.
    rewrite !scalars_app, Hsc2, Hsc1, Hfl.
    assert (Hpr : forall l, @scalars T [Print l] = []) by reflexivity.
    rewrite !Hpr. rewrite !map_app, (IH Hrest). cbn [map fst app].
    assert (Hcount : List.length (flush_indices config (List.length (train_loader epoch)))
                     = Z.to_nat (len T (train_loader epoch) / print_every config)).
    { unfold len. rewrite <- flush_indices_length by exact Hpos. lia. }
    destruct (use_tpu config).
    + reflexivity.
    + rewrite map_fst_pair. unfold consecutive at 1. rewrite length_map, length_seq, Hcount.
      rewrite <- app_assoc. reflexivity.
Qed.

Lemma log_tags_witness :
  let config := Toy.single_device 2 1 2 in
  let train_loader := fun _ : Z => Toy.unit_batches 5 in
  let test_loader := fun _ : Z => Toy.unit_batches 1 in
  (0 < print_every config /\ runs_clean config train_loader test_loader (range 2))
  /\ map fst (scalars (emitted (epochs Toy.collaborators config "m" Toy.shape 0
                                  train_loader test_loader (range 2) 0 Toy.start))) =
     ["train/bpd"; "train/bpd"; "test/bpd"; "train/bpd"; "train/bpd"; "test/bpd"].
Proof.
  intros config train_loader test_loader.
  assert (Hp : 0 < print_every config) by reflexivity.
  assert (Hclean : runs_clean config train_loader test_loader (range 2))
    by (apply (toy_runs_clean false 2 1 2 4 0); lia).
  split; [split; assumption |].
  exact (log_tags Toy.collaborators config "m" Toy.shape 0 train_loader test_loader
           (range 2) Hp Hclean 0 Toy.start).
Defined.
